(** * Monte-Carlo GBM simulator: a shallow embedding of [montecarlo.py]

    The class [MonteCarloGBMSimulator] calibrates a drift and a volatility
    from a table of historical returns (or closing prices), simulates
    geometric-Brownian-motion capital paths, and prints statistics of the
    terminal values.

    Numbers.  A Python / numpy [float64] is modelled by [float64] below:
    the special values [nan], [+inf], [-inf] and the finite values, the
    latter carried by a real number.  Arithmetic on finite values is exact
    real arithmetic: rounding, overflow to infinity and signed zeros are not
    part of the model.  Everything proved here about numeric values is
    therefore a statement about the formulas the code evaluates, in exact
    arithmetic.  Python [int]s are [Z]. *)

From Stdlib Require Import Reals Lra Lia ZArith List String Bool.
Import ListNotations.

Open Scope R_scope.

(** ** Floating-point values with their special cases *)

Module Float.

Inductive float64 : Type :=
| nan : float64
| inf (negative : bool) : float64
| fin (r : R) : float64.

Definition isnan (x : float64) : bool :=
  match x with nan => true | _ => false end.

Definition isfinite (x : float64) : bool :=
  match x with fin _ => true | _ => false end.

(** Sign of a real number, as a three-way comparison with zero. *)
Definition Rsign (r : R) : comparison :=
  match total_order_T r 0 with
  | inleft (left _) => Lt
  | inleft (right _) => Eq
  | inright _ => Gt
  end.

Definition fneg (x : float64) : float64 :=
  match x with
  | nan => nan
  | inf s => inf (negb s)
  | fin r => fin (- r)
  end.

Definition fadd (x y : float64) : float64 :=
  match x, y with
  | nan, _ | _, nan => nan
  | fin a, fin b => fin (a + b)
  | inf s, fin _ | fin _, inf s => inf s
  | inf s, inf s' => if Bool.eqb s s' then inf s else nan
  end.

Definition fsub (x y : float64) : float64 := fadd x (fneg y).

Definition fmul (x y : float64) : float64 :=
  match x, y with
  | nan, _ | _, nan => nan
  | fin a, fin b => fin (a * b)
  | inf s, fin b | fin b, inf s =>
      match Rsign b with
      | Gt => inf s
      | Lt => inf (negb s)
      | Eq => nan
      end
  | inf s, inf s' => inf (xorb s s')
  end.

Definition fdiv (x y : float64) : float64 :=
  match x, y with
  | nan, _ | _, nan => nan
  | fin a, fin b =>
      match Rsign b with
      | Eq => match Rsign a with
              | Eq => nan
              | Gt => inf false
              | Lt => inf true
              end
      | _ => fin (a / b)
      end
  | fin _, inf _ => fin 0
  | inf s, fin b => match Rsign b with Lt => inf (negb s) | _ => inf s end
  | inf _, inf _ => nan
  end.

Definition fsqrt (x : float64) : float64 :=
  match x with
  | nan => nan
  | inf false => inf false
  | inf true => nan
  | fin r => match Rsign r with Lt => nan | _ => fin (sqrt r) end
  end.

Definition fexp (x : float64) : float64 :=
  match x with
  | nan => nan
  | inf false => inf false
  | inf true => fin 0
  | fin r => fin (exp r)
  end.

(** [x ** 2] on a float64 scalar. *)
Definition fpow2 (x : float64) : float64 := fmul x x.

(** Order on non-nan values: [-inf <= finite <= +inf]. *)
Definition fle (x y : float64) : bool :=
  match x, y with
  | nan, _ | _, nan => false
  | inf true, _ => true
  | _, inf false => true
  | inf false, _ => false
  | _, inf true => false
  | fin a, fin b => if Rle_dec a b then true else false
  end.

(** numpy's reductions propagate nan. *)
Definition fmin (x y : float64) : float64 :=
  if isnan x then x else if isnan y then y else if fle x y then x else y.

Definition fmax (x y : float64) : float64 :=
  if isnan x then x else if isnan y then y else if fle x y then y else x.

(** Sum of a sequence, accumulated from zero in index order. *)
Definition fsum (xs : list float64) : float64 :=
  fold_left fadd xs (fin 0).

Definition of_nat (n : nat) : float64 := fin (INR n).
Definition of_Z (z : Z) : float64 := fin (IZR z).

End Float.
Export Float.

(** ** Exceptions and the state-and-error monad

    A method runs on a mutable state and either returns a value or raises.
    State changes made before a [raise] stay in place, as in Python. *)

Inductive exn : Type :=
| ValueError (msg : string)
| IndexError (msg : string)
| KeyError (key : string).

Inductive result (A : Type) : Type :=
| Ok (a : A)
| Raise (e : exn).
Arguments Ok {A} a.
Arguments Raise {A} e.

Definition M (S A : Type) : Type := S -> S * result A.

Definition ret {S A} (a : A) : M S A := fun s => (s, Ok a).

Definition raise {S A} (e : exn) : M S A := fun s => (s, Raise e).

Definition bind {S A B} (m : M S A) (k : A -> M S B) : M S B :=
  fun s => match m s with
           | (s', Ok a) => k a s'
           | (s', Raise e) => (s', Raise e)
           end.

Definition get {S} : M S S := fun s => (s, Ok s).

Declare Scope py_scope.
Delimit Scope py_scope with py.
Notation "x <- m ;; k" := (bind m (fun x => k))
  (at level 61, m at next level, right associativity) : py_scope.
Notation "m ;; k" := (bind m (fun _ => k))
  (at level 61, right associativity) : py_scope.

Definition raises {A} (r : result A) : bool :=
  match r with Ok _ => false | Raise _ => true end.

(** ** pandas: Series and DataFrame

    A numeric column is a list of cells; a missing entry is [nan].  A
    DataFrame is the ordered list of its named columns; it is a mutable
    object shared with the caller, so the constructor runs in the state
    monad over it. *)

Module pd.

Definition Series : Type := list float64.
Definition DataFrame : Type := list (string * Series).

Definition columns (df : DataFrame) : list string := map fst df.

(** [name in df.columns] *)
Definition contains (name : string) (df : DataFrame) : bool :=
  existsb (String.eqb name) (columns df).

Fixpoint lookup (name : string) (df : DataFrame) : option Series :=
  match df with
  | [] => None
  | (c, s) :: rest => if String.eqb name c then Some s else lookup name rest
  end.

(** [df[name]] *)
Definition getitem (name : string) : M DataFrame Series :=
  fun df => match lookup name df with
            | Some s => (df, Ok s)
            | None => (df, Raise (KeyError name))
            end.

(** [df[name] = s]: overwrites the column when present, appends it
    otherwise; the frame is changed in place. *)
Fixpoint assign (name : string) (s : Series) (df : DataFrame) : DataFrame :=
  match df with
  | [] => [(name, s)]
  | (c, old) :: rest =>
      if String.eqb name c then (c, s) :: rest
      else (c, old) :: assign name s rest
  end.

Definition setitem (name : string) (s : Series) : M DataFrame unit :=
  fun df => (assign name s df, Ok tt).

(** [Series.dropna()] *)
Definition dropna (s : Series) : Series :=
  filter (fun x => negb (isnan x)) s.

(** [Series.astype(float)] on a numeric column. *)
Definition astype_float (s : Series) : Series := s.

(** [Series.ffill()]: a missing entry takes the last valid value before it. *)
Fixpoint ffill_from (prev : float64) (s : Series) : Series :=
  match s with
  | [] => []
  | x :: rest =>
      let y := if isnan x then prev else x in
      y :: ffill_from y rest
  end.

Definition ffill (s : Series) : Series := ffill_from nan s.

(** [Series.shift(1)] *)
Definition shift1 (s : Series) : Series :=
  match s with
  | [] => []
  | _ => nan :: removelast s
  end.

Fixpoint zip_with {A B C} (f : A -> B -> C) (xs : list A) (ys : list B)
  : list C :=
  match xs, ys with
  | x :: xs', y :: ys' => f x y :: zip_with f xs' ys'
  | _, _ => []
  end.

(** [Series.pct_change()] with pandas' defaults ([periods=1],
    [fill_method='pad']): [data = s.ffill(); data / data.shift(1) - 1]. *)
Definition pct_change (s : Series) : Series :=
  let data := ffill s in
  zip_with (fun d p => fsub (fdiv d p) (fin 1)) data (shift1 data).

(** [Series.mean()] ([skipna=True]): the sum of the valid entries over
    their count, [nan] when there is none. *)
Definition mean (s : Series) : float64 :=
  let values := dropna s in
  let count := List.length values in
  match count with
  | O => nan
  | _ => fdiv (fsum values) (of_nat count)
  end.

(** [Series.var(ddof)] ([skipna=True]): [nan] when [count <= ddof],
    otherwise the squared deviations from the average, summed and divided
    by [count - ddof]. *)
Definition var (ddof : nat) (s : Series) : float64 :=
  let values := dropna s in
  let count := List.length values in
  if (count <=? ddof)%nat then nan
  else
    let avg := fdiv (fsum values) (of_nat count) in
    let sqr := map (fun v => fpow2 (fsub avg v)) values in
    fdiv (fsum sqr) (of_nat (count - ddof)).

(** [Series.std()]: pandas' default is [ddof=1]. *)
Definition std (s : Series) : float64 := fsqrt (var 1 s).

End pd.

(** ** The simulator object *)

Record ndarray : Type := mk_ndarray {
  shape : nat * nat;
  data : list (list float64)
}.

Record MonteCarloGBMSimulator : Type := mk_sim {
  returns : pd.Series;
  mu : float64;
  sigma : float64;
  initial_capital : float64;
  n_days : Z;
  n_simulations : Z;
  simulated_paths : option ndarray
}.

Open Scope py_scope.
Open Scope string_scope.

Definition missing_columns_msg : string :=
  "CSV must contain either 'pnl_pct' or 'close' column.".

(** [MonteCarloGBMSimulator.__init__].  [volatility_multiplier] is [None]
    when the caller leaves the keyword out and the default [1.0] applies.
    The state is the caller's table [df]. *)
Definition __init__ (initial_capital : float64) (n_days n_simulations : Z)
    (volatility_multiplier : option float64)
  : M pd.DataFrame MonteCarloGBMSimulator :=
  let volatility_multiplier :=
    match volatility_multiplier with Some k => k | None => fin 1 end in
  df <- get ;;
  (if negb (pd.contains "pnl_pct" df) then
     if negb (pd.contains "close" df) then
       raise (ValueError missing_columns_msg)
     else
       close <- pd.getitem "close" ;;
       pd.setitem "pnl_pct" (pd.pct_change close)
   else ret tt) ;;
  pnl <- pd.getitem "pnl_pct" ;;
  let returns := pd.astype_float (pd.dropna pnl) in
  let mu := pd.mean returns in
  let sigma := fmul (pd.std returns) volatility_multiplier in
  ret {| returns := returns;
         mu := mu;
         sigma := sigma;
         initial_capital := initial_capital;
         n_days := n_days;
         n_simulations := n_simulations;
         simulated_paths := None |}.

(** ** numpy: two-dimensional arrays, the global random generator *)

(** What [print] has written.  The rendering of a number ([:,.2f] with a
    currency sign in front) is kept symbolic: a line records its label and
    the value that is formatted; the blank lines around the titles are left
    out. *)
Inductive printed : Type :=
| PText (s : string)
| PInt (label : string) (n : Z)
| PMoney (label : string) (x : float64).

(** The state a method of the simulator runs on: the instance, the text
    printed so far, and the stream of standard-normal draws that the global
    generator [np.random] will produce next. *)
Record Env : Type := mk_env {
  self : MonteCarloGBMSimulator;
  stdout : list printed;
  random_state : nat -> R
}.

Definition print (p : printed) : M Env unit :=
  fun e => ({| self := self e;
               stdout := stdout e ++ [p];
               random_state := random_state e |}, Ok tt).

Definition get_self : M Env MonteCarloGBMSimulator :=
  fun e => (e, Ok (self e)).

(** [self.simulated_paths = p] *)
Definition set_simulated_paths (p : ndarray) : M Env unit :=
  fun e =>
    let s := self e in
    ({| self := {| returns := returns s;
                   mu := mu s;
                   sigma := sigma s;
                   initial_capital := initial_capital s;
                   n_days := n_days s;
                   n_simulations := n_simulations s;
                   simulated_paths := Some p |};
        stdout := stdout e;
        random_state := random_state e |}, Ok tt).

Module np.

Definition negative_dimensions_msg : string :=
  "negative dimensions are not allowed".
Definition zero_size_minimum_msg : string :=
  "zero-size array to reduction operation minimum which has no identity".
Definition zero_size_maximum_msg : string :=
  "zero-size array to reduction operation maximum which has no identity".
(** numpy's message also names the index and the size of the axis. *)
Definition out_of_bounds_msg : string :=
  "index is out of bounds for axis 0".

(** The [d0 x d1] matrix filled row by row from the stream [g]. *)
Definition draws (g : nat -> R) (d0 d1 : nat) : list (list float64) :=
  map (fun t => map (fun n => fin (g (t * d1 + n)%nat)) (seq 0 d1)) (seq 0 d0).

(** [np.random.randn(d0, d1)]: raises on a negative dimension; otherwise
    consumes [d0 * d1] draws from the generator.  numpy's upper limits on
    the size of an array, and the memory of the machine, are not modelled:
    what is proved of a successful call holds of the calls that fit. *)
Definition randn (d0 d1 : Z) : M Env ndarray :=
  fun e =>
    if ((d0 <? 0) || (d1 <? 0))%Z then
      (e, Raise (ValueError negative_dimensions_msg))
    else
      let r := Z.to_nat d0 in
      let c := Z.to_nat d1 in
      let g := random_state e in
      ({| self := self e;
          stdout := stdout e;
          random_state := fun k => g (k + r * c)%nat |},
       Ok {| shape := (r, c); data := draws g r c |}).

(** Element-wise application, as numpy broadcasts a scalar over an array. *)
Definition map_array (f : float64 -> float64) (a : ndarray) : ndarray :=
  {| shape := shape a; data := map (map f) (data a) |}.

Definition scalar_mul (c : float64) (a : ndarray) : ndarray :=
  map_array (fun x => fmul c x) a.
Definition mul_scalar (a : ndarray) (c : float64) : ndarray :=
  map_array (fun x => fmul x c) a.
Definition scalar_add (c : float64) (a : ndarray) : ndarray :=
  map_array (fun x => fadd c x) a.

Definition sqrt (x : float64) : float64 := fsqrt x.
Definition exp (a : ndarray) : ndarray := map_array fexp a.

(** [np.cumsum(a, axis=0)]: row [t] of the result is row [t-1] of the
    result plus row [t] of [a]. *)
Fixpoint cumsum_from (acc : list float64) (rows : list (list float64))
  : list (list float64) :=
  match rows with
  | [] => []
  | r :: rest =>
      let acc' := pd.zip_with fadd acc r in
      acc' :: cumsum_from acc' rest
  end.

Definition cumsum0 (a : ndarray) : ndarray :=
  {| shape := shape a;
     data := match data a with
             | [] => []
             | r :: rest => r :: cumsum_from r rest
             end |}.

(** [a[i]] for a two-dimensional [a]: a negative index counts from the
    end; an index outside the rows raises [IndexError]. *)
Definition row (a : ndarray) (i : Z) : result (list float64) :=
  let rows := Z.of_nat (fst (shape a)) in
  let j := (if i <? 0 then i + rows else i)%Z in
  if ((0 <=? j) && (j <? rows))%Z then Ok (nth (Z.to_nat j) (data a) [])
  else Raise (IndexError out_of_bounds_msg).

(** Reductions of a one-dimensional array. *)
Definition min (xs : list float64) : result float64 :=
  match xs with
  | [] => Raise (ValueError zero_size_minimum_msg)
  | x :: rest => Ok (fold_left fmin rest x)
  end.

Definition max (xs : list float64) : result float64 :=
  match xs with
  | [] => Raise (ValueError zero_size_maximum_msg)
  | x :: rest => Ok (fold_left fmax rest x)
  end.

Definition mean (xs : list float64) : float64 :=
  fdiv (fsum xs) (of_nat (List.length xs)).

(** [ndarray.var(ddof)]: deviations from the mean, squared, summed, and
    divided by [max(N - ddof, 0)]. *)
Definition var (ddof : nat) (xs : list float64) : float64 :=
  let n := List.length xs in
  let arrmean := fdiv (fsum xs) (of_nat n) in
  let x := map (fun a => fsub a arrmean) xs in
  let x := map (fun d => fmul d d) x in
  fdiv (fsum x) (of_nat (Nat.max (n - ddof) 0)).

(** [ndarray.std()]: numpy's default is [ddof=0]. *)
Definition std (xs : list float64) : float64 := fsqrt (var 0 xs).

Fixpoint insert (x : float64) (xs : list float64) : list float64 :=
  match xs with
  | [] => [x]
  | y :: rest => if fle x y then x :: xs else y :: insert x rest
  end.

Definition sort (xs : list float64) : list float64 :=
  fold_right insert [] xs.

(** numpy's linear interpolation between two order statistics. *)
Definition lerp (a b : float64) (t_num t_den : Z) : float64 :=
  let t := fdiv (of_Z t_num) (of_Z t_den) in
  let diff_b_a := fsub b a in
  if (t_den <=? 2 * t_num)%Z then fsub b (fmul diff_b_a (fsub (fin 1) t))
  else fadd a (fmul diff_b_a t).

(** [np.percentile(xs, q)] for an integer [q] (method ['linear']): the
    virtual index is [q/100 * (N-1)]; the result interpolates between the
    order statistics around it, and is [nan] when [xs] holds a [nan]. *)
Definition percentile (xs : list float64) (q : Z) : float64 :=
  if existsb isnan xs then nan
  else
    let n := Z.of_nat (List.length xs) in
    let sorted := sort xs in
    let virtual := (q * (n - 1))%Z in
    let previous := (virtual / 100)%Z in
    let next := Z.min (previous + 1) (n - 1) in
    lerp (nth (Z.to_nat previous) sorted nan)
         (nth (Z.to_nat next) sorted nan)
         (virtual mod 100) 100.

End np.

Definition lift {S A} (r : result A) : M S A := fun s => (s, r).

(** ** [simulate] and [summary] *)

Definition simulate : M Env ndarray :=
  self <- get_self ;;
  let dt := 1%Z in
  let drift :=
    fmul (fsub (mu self) (fmul (fin 0.5) (fpow2 (sigma self)))) (of_Z dt) in
  z <- np.randn (n_days self) (n_simulations self) ;;
  let shock := np.mul_scalar (np.scalar_mul (sigma self) z) (np.sqrt (of_Z dt)) in
  let log_returns := np.scalar_add drift shock in
  let cumulative_returns := np.cumsum0 log_returns in
  let price_paths :=
    np.scalar_mul (initial_capital self) (np.exp cumulative_returns) in
  set_simulated_paths price_paths ;;
  ret price_paths.

Definition not_simulated_msg : string := "Run simulate() before summary().".

Definition summary : M Env unit :=
  self <- get_self ;;
  print (PText "========== Simulation Summary ==========") ;;
  print (PMoney "Initial Capital: " (initial_capital self)) ;;
  print (PInt "Days: " (n_days self)) ;;
  print (PInt "Simulations: " (n_simulations self)) ;;
  match simulated_paths self with
  | None => raise (ValueError not_simulated_msg)
  | Some paths =>
      final_vals <- lift (np.row paths (-1)) ;;
      print (PText "========== Final Portfolio Value Distribution ==========") ;;
      lo <- lift (np.min final_vals) ;;
      print (PMoney "Min             : " lo) ;;
      hi <- lift (np.max final_vals) ;;
      print (PMoney "Max             : " hi) ;;
      print (PMoney "Mean            : " (np.mean final_vals)) ;;
      print (PMoney "Std Dev         : " (np.std final_vals)) ;;
      print (PMoney "5th Percentile  : " (np.percentile final_vals 5)) ;;
      print (PMoney "80th Percentile : " (np.percentile final_vals 80))
  end.

(** ** Definitions that follow the specification's words

    These are the formulas of the specification, to be compared with what
    the code computes. *)

(** Sum of [f 0 .. f t], in time-increasing order. *)
Fixpoint prefix_sum (f : nat -> float64) (t : nat) : float64 :=
  match t with
  | O => f O
  | S t' => fadd (prefix_sum f t') (f t)
  end.

(** The GBM log-drift correction [mu - 0.5 * sigma^2]. *)
Definition drift_term (mu sigma : float64) : float64 :=
  fsub mu (fmul (fin 0.5) (fpow2 sigma)).

(** Path value of the specification: [C0 * exp(sum_{i<=t} (drift + sigma*z i))]. *)
Definition gbm_value (C0 mu sigma : float64) (z : nat -> R) (t : nat)
  : float64 :=
  fmul C0
       (fexp (prefix_sum
                (fun i => fadd (drift_term mu sigma) (fmul sigma (fin (z i))))
                t)).

Definition arithmetic_mean (xs : list float64) : float64 :=
  fdiv (fsum xs) (of_nat (List.length xs)).

Definition sum_sq_dev (xs : list float64) : float64 :=
  fsum (map (fun x => fpow2 (fsub x (arithmetic_mean xs))) xs).

(** Standard deviation with divisor [N - 1]. *)
Definition sample_std (xs : list float64) : float64 :=
  fsqrt (fdiv (sum_sq_dev xs) (fin (INR (List.length xs) - 1))).

(** Standard deviation with divisor [N]. *)
Definition population_std (xs : list float64) : float64 :=
  fsqrt (fdiv (sum_sq_dev xs) (fin (INR (List.length xs)))).

(** The return series the specification calibrates on: the ['pnl_pct']
    column, or the percentage change of ['close'] when there is none, with
    missing values dropped. *)
Definition cleaned_returns (df : pd.DataFrame) : option pd.Series :=
  match pd.lookup "pnl_pct" df with
  | Some s => Some (pd.dropna s)
  | None =>
      match pd.lookup "close" df with
      | Some c => Some (pd.dropna (pd.pct_change c))
      | None => None
      end
  end.

(** Cell [t, n] of a matrix. *)
Definition cell (a : ndarray) (t n : nat) : float64 :=
  nth n (nth t (data a) []) nan.

(** The matrix with entry [f t n] at row [t], column [n]. *)
Definition tabulate (f : nat -> nat -> float64) (T N : nat)
  : list (list float64) :=
  map (fun t => map (f t) (seq 0 N)) (seq 0 T).

(** ** Auxiliary definitions for the statements *)

(** The instance after [simulate] has stored [p]. *)
Definition with_paths (s : MonteCarloGBMSimulator) (p : ndarray)
  : MonteCarloGBMSimulator :=
  {| returns := returns s;
     mu := mu s;
     sigma := sigma s;
     initial_capital := initial_capital s;
     n_days := n_days s;
     n_simulations := n_simulations s;
     simulated_paths := Some p |}.

(** The matrix of the specification for the draws in the stream [g]. *)
Definition gbm_matrix (s : MonteCarloGBMSimulator) (g : nat -> R)
    (T N : nat) : ndarray :=
  {| shape := (T, N);
     data := tabulate
               (fun t n =>
                  gbm_value (initial_capital s) (mu s) (sigma s)
                            (fun i => g (i * N + n)%nat) t)
               T N |}.

(** The instance [__init__] builds from a cleaned return series. *)
Definition calibrated (r : pd.Series) (C0 : float64) (T N : Z)
    (vm : option float64) : MonteCarloGBMSimulator :=
  {| returns := r;
     mu := pd.mean r;
     sigma := fmul (pd.std r) (match vm with Some k => k | None => fin 1 end);
     initial_capital := C0;
     n_days := T;
     n_simulations := N;
     simulated_paths := None |}.

Definition summary_header (s : MonteCarloGBMSimulator) : list printed :=
  [PText "========== Simulation Summary ==========";
   PMoney "Initial Capital: " (initial_capital s);
   PInt "Days: " (n_days s);
   PInt "Simulations: " (n_simulations s)].

Definition distribution_title : printed :=
  PText "========== Final Portfolio Value Distribution ==========".

Definition distribution_lines (xs : list float64) (lo hi : float64)
  : list printed :=
  [PMoney "Min             : " lo;
   PMoney "Max             : " hi;
   PMoney "Mean            : " (np.mean xs);
   PMoney "Std Dev         : " (np.std xs);
   PMoney "5th Percentile  : " (np.percentile xs 5);
   PMoney "80th Percentile : " (np.percentile xs 80)].

(** [summary] by cases: what it prints and how it ends. *)
Definition summary_outcome (e : Env) : list printed * result unit :=
  match simulated_paths (self e) with
  | None => ([], Raise (ValueError not_simulated_msg))
  | Some paths =>
      match np.row paths (-1) with
      | Raise ex => ([], Raise ex)
      | Ok [] => ([distribution_title],
                  Raise (ValueError np.zero_size_minimum_msg))
      | Ok (x :: rest) =>
          (distribution_title
             :: distribution_lines (x :: rest)
                  (fold_left fmin rest x) (fold_left fmax rest x),
           Ok tt)
      end
  end.

(** ** Concrete inputs used in examples *)

Definition sim_2x2 : MonteCarloGBMSimulator :=
  {| returns := [fin 0.01; fin (-0.02)];
     mu := fin 0.00125;
     sigma := fin 0;
     initial_capital := fin 1000;
     n_days := 2;
     n_simulations := 2;
     simulated_paths := None |}.

Definition env_2x2 : Env :=
  {| self := sim_2x2; stdout := []; random_state := fun k => INR k |}.

Definition table_returns : pd.DataFrame :=
  [("pnl_pct", [fin 0.01; nan; fin 0.03]);
   ("close", [fin 100; fin 101; fin 99])].

Definition table_close : pd.DataFrame :=
  [("close", [fin 100; fin 101; fin 99])].

Definition table_empty_returns : pd.DataFrame := [("pnl_pct", [])].

Definition table_one_price : pd.DataFrame := [("close", [fin 100])].

Definition table_scenario : pd.DataFrame :=
  [("pnl_pct", [fin 0.01; fin (-0.02); fin 0.015; fin 0])].

Definition env_zero_days : Env :=
  {| self := {| returns := [fin 0.01; fin (-0.02)];
                mu := fin 0.00125;
                sigma := fin 0.5;
                initial_capital := fin 1000;
                n_days := 0;
                n_simulations := 1;
                simulated_paths := None |};
     stdout := [];
     random_state := fun k => INR k |}.

Definition sim_terminal_1_3 : MonteCarloGBMSimulator :=
  {| returns := [fin 0.01; fin (-0.02)];
     mu := fin 0.00125;
     sigma := fin 0.5;
     initial_capital := fin 2;
     n_days := 1;
     n_simulations := 2;
     simulated_paths :=
       Some {| shape := (1%nat, 2%nat); data := [[fin 1; fin 3]] |} |}.

Definition env_terminal_1_3 : Env :=
  {| self := sim_terminal_1_3; stdout := []; random_state := fun k => INR k |}.

(** ** [plot] and the body of the script

    matplotlib is an external collaborator: a call to [plt] is recorded, in
    order, on the session's figure log.  A session is the method state
    together with that log. *)

Inductive plt_call : Type :=
| Figure (width height : Z)
| Plot (ys : ndarray) (alpha : float64)
| Title (s : string)
| Xlabel (s : string)
| Ylabel (s : string)
| Grid (on : bool)
| TightLayout
| ShowFigure.

Record Session : Type := mk_session {
  env : Env;
  figure_log : list plt_call
}.

(** A method that does not draw, run inside a session. *)
Definition in_session {A} (m : M Env A) : M Session A :=
  fun s => match m (env s) with
           | (e', r) => ({| env := e'; figure_log := figure_log s |}, r)
           end.

Definition plt (c : plt_call) : M Session unit :=
  fun s => ({| env := env s; figure_log := figure_log s ++ [c] |}, Ok tt).

Definition not_plotted_msg : string := "Run simulate() before plotting.".

Definition plot : M Session unit :=
  self <- in_session get_self ;;
  match simulated_paths self with
  | None => raise (ValueError not_plotted_msg)
  | Some paths =>
      plt (Figure 12 6) ;;
      plt (Plot paths (fin 0.3)) ;;
      plt (Title "Monte Carlo Simulation (GBM) of Strategy Performance") ;;
      plt (Xlabel "Days") ;;
      plt (Ylabel "Portfolio Value") ;;
      plt (Grid true) ;;
      plt TightLayout ;;
      plt ShowFigure
  end.

(** The three method calls of the script, [sim.simulate(); sim.plot();
    sim.summary()]. *)
Definition run_methods : M Session unit :=
  in_session simulate ;;
  plot ;;
  in_session summary.

(** The script from the construction of the simulator on, for the table
    [df] the loading step has produced: the constructor call with the
    script's configuration, then the three method calls.  The result is the
    table as the constructor leaves it, the session when there is one, and
    how the script ends. *)
Definition script_body (df : pd.DataFrame) (out : list printed)
    (g : nat -> R) : pd.DataFrame * option Session * result unit :=
  match __init__ (fin 25000) 252 50 (Some (fin 0.8)) df with
  | (df', Raise ex) => (df', None, Raise ex)
  | (df', Ok sim) =>
      let s0 := {| env := {| self := sim; stdout := out; random_state := g |};
                   figure_log := [] |} in
      match run_methods s0 with
      | (s, r) => (df', Some s, r)
      end
  end.

(** The calls [plot] makes for the matrix [p], in order. *)
Definition plot_calls (p : ndarray) : list plt_call :=
  [Figure 12 6;
   Plot p (fin 0.3);
   Title "Monte Carlo Simulation (GBM) of Strategy Performance";
   Xlabel "Days";
   Ylabel "Portfolio Value";
   Grid true;
   TightLayout;
   ShowFigure].

(** ** The symbol cache: [CacheManager] and [MetadataService]

    These two classes work on Python objects, on one file and on the
    console, and call code outside the repository: [open], [json.dump],
    the NSE client and the clock.  The outside world is a record of what
    those calls answer; the host state is the cache file and the console. *)

Module Py.

#[local] Set Warnings "-register-all".

Inductive pyobj : Type :=
| PyNone
| PyStr (s : string)
| PyList (items : list pyobj)
| PyDict (items : list (string * pyobj))
| PyObject (class_name : string).

(** [obj.__class__.__name__] *)
Definition class_name (obj : pyobj) : string :=
  match obj with
  | PyNone => "NoneType"
  | PyStr _ => "str"
  | PyList _ => "list"
  | PyDict _ => "dict"
  | PyObject c => c
  end.

Definition is_none (obj : pyobj) : bool :=
  match obj with PyNone => true | _ => false end.

(** An exception, by its place in Python's hierarchy: [OSError] (of which
    [IOError] is an alias) and its subclasses, [TypeError], any other
    subclass of [Exception], and the exceptions that are not ([SystemExit],
    [KeyboardInterrupt]). *)
Inductive pyexn : Type :=
| OSError (cls : string)
| TypeError (operand_class : string)
| OtherException (cls : string)
| NonException (cls : string).

Definition exn_class (e : pyexn) : string :=
  match e with
  | OSError c => c
  | TypeError _ => "TypeError"
  | OtherException c => c
  | NonException c => c
  end.

(** [except IOError] and [except Exception] *)
Definition is_io_error (e : pyexn) : bool :=
  match e with OSError _ => true | _ => false end.

Definition is_exception (e : pyexn) : bool :=
  match e with NonException _ => false | _ => true end.

Inductive outcome (A : Type) : Type :=
| Return (a : A)
| Throw (e : pyexn).
Arguments Return {A} a.
Arguments Throw {A} e.

Record Host : Type := mk_host {
  cache_file : option string;
  console : list string
}.

(** What the code outside the repository answers: whether [open(.., "w")]
    fails (with which [OSError]), the text [json.dump] writes for an object
    and the exception that interrupts it if one does, what the NSE client
    returns or raises, and the text of [str(datetime.now())]. *)
Record Outside : Type := mk_outside {
  open_error : option string;
  json_dump : pyobj -> string * option pyexn;
  nse_eq_symbols : outcome pyobj;
  now : string
}.

Definition H (A : Type) : Type := Host -> Host * outcome A.

Definition ret {A} (a : A) : H A := fun h => (h, Return a).
Definition throw {A} (e : pyexn) : H A := fun h => (h, Throw e).
Definition bind {A B} (m : H A) (k : A -> H B) : H B :=
  fun h => match m h with
           | (h', Return a) => k a h'
           | (h', Throw e) => (h', Throw e)
           end.

(** [try: body except <catches> as e: handler e] *)
Definition try_except {A} (body : H A) (catches : pyexn -> bool)
    (handler : pyexn -> H A) : H A :=
  fun h => match body h with
           | (h', Throw e) => if catches e then handler e h' else (h', Throw e)
           | r => r
           end.

Definition print (s : string) : H unit :=
  fun h => ({| cache_file := cache_file h; console := console h ++ [s] |},
            Return tt).

(** [s + e] for a string [s] and an exception object [e]: [str] does not
    concatenate with an exception, the expression raises [TypeError]. *)
Definition str_add_exn (s : string) (e : pyexn) : H string :=
  throw (TypeError (exn_class e)).

(** [open(CACHE_FILE, "w")]: truncates the file, or raises. *)
Definition open_w (o : Outside) : H unit :=
  fun h => match open_error o with
           | Some cls => (h, Throw (OSError cls))
           | None => ({| cache_file := Some ""; console := console h |},
                      Return tt)
           end.

(** [json.dump(data, f, indent=4)]: the text goes to the file, up to the
    point where an exception interrupts the encoder.  Closing the file at
    the end of the [with] block is taken to succeed. *)
Definition dump (o : Outside) (data : pyobj) : H unit :=
  fun h => match json_dump o data with
           | (text, None) =>
               ({| cache_file := Some text; console := console h |}, Return tt)
           | (text, Some e) =>
               ({| cache_file := Some text; console := console h |}, Throw e)
           end.

Definition call_api (o : Outside) : H pyobj :=
  fun h => (h, nse_eq_symbols o).

End Py.

Declare Scope host_scope.
Delimit Scope host_scope with host.
Notation "x <- m ;; k" := (Py.bind m (fun x => k))
  (at level 61, m at next level, right associativity) : host_scope.
Notation "m ;; k" := (Py.bind m (fun _ => k))
  (at level 61, right associativity) : host_scope.

Module CacheManager.
Import Py.

(** [CacheManager.update_cache].  Inside the [try], [Some b] stands for
    [return b] and [None] for falling out of the statement, after which the
    method ends with [return False]. *)
Definition update_cache (o : Outside) (data : pyobj) : H bool :=
  (if is_none data || negb (String.eqb (class_name data) "dict") then
     ret false
   else
     r <- try_except
            (open_w o ;;
             dump o data ;;
             print "Cache updated successfully!" ;;
             ret (Some true))
            is_io_error
            (fun e =>
               msg <- str_add_exn "Error updating cache: " e ;;
               print msg ;;
               ret None) ;;
     match r with
     | Some b => ret b
     | None => ret false
     end)%host.

End CacheManager.

Module MetadataService.
Import Py.

(** [MetadataService.fetch_symbols] *)
Definition fetch_symbols (o : Outside) : H bool :=
  (r <- try_except
          (symbols <- call_api o ;;
           print "Symbols fetched successfully!" ;;
           let data := PyDict [("datetime", PyStr (now o));
                               ("symbols", symbols)] in
           success <- CacheManager.update_cache o data ;;
           if success then ret (Some true) else ret None)
          is_exception
          (fun e =>
             msg <- str_add_exn "Error fetching symbols: " e ;;
             print msg ;;
             ret None) ;;
   match r with
   | Some b => ret b
   | None => ret false
   end)%host.

End MetadataService.

(** Concrete outside worlds used in examples: one where everything works,
    one where the disk fills up while the encoder writes, one where the NSE
    client fails. *)
Definition outside_ok : Py.Outside :=
  {| Py.open_error := None;
     Py.json_dump := fun _ => ("{...}", None);
     Py.nse_eq_symbols := Py.Return (Py.PyList [Py.PyStr "INFY"; Py.PyStr "TCS"]);
     Py.now := "2025-01-01 09:15:00" |}.

Definition outside_disk_full : Py.Outside :=
  {| Py.open_error := None;
     Py.json_dump := fun _ => ("{", Some (Py.OSError "OSError"));
     Py.nse_eq_symbols := Py.Return (Py.PyList [Py.PyStr "INFY"; Py.PyStr "TCS"]);
     Py.now := "2025-01-01 09:15:00" |}.

Definition outside_offline : Py.Outside :=
  {| Py.open_error := None;
     Py.json_dump := fun _ => ("{...}", None);
     Py.nse_eq_symbols := Py.Throw (Py.OtherException "ConnectionError");
     Py.now := "2025-01-01 09:15:00" |}.

Definition host_with_cache : Py.Host :=
  {| Py.cache_file := Some "{old}"; Py.console := [] |}.

(** The dictionary [fetch_symbols] hands to the cache. *)
Definition symbols_record (o : Py.Outside) (symbols : Py.pyobj) : Py.pyobj :=
  Py.PyDict [("datetime", Py.PyStr (Py.now o)); ("symbols", symbols)].

(** What [fetch_symbols] raises when [e] reaches its [except] clause. *)
Definition handled (e : Py.pyexn) : Py.pyexn :=
  if Py.is_exception e then Py.TypeError (Py.exn_class e) else e.

(** ** Further definitions for the statements *)

(** Period-over-period changes of a list of prices: [b / a - 1] for each
    consecutive pair [a, b]. *)
Fixpoint changes_from (a : R) (ps : list R) : list R :=
  match ps with
  | [] => []
  | b :: rest => (b / a - 1) :: changes_from b rest
  end.

Definition consecutive_returns (ps : list R) : list R :=
  match ps with
  | [] => []
  | a :: rest => changes_from a rest
  end.

Definition env_of (s : MonteCarloGBMSimulator) (out : list printed)
    (g : nat -> R) : Env :=
  {| self := s; stdout := out; random_state := g |}.

(** ** Arithmetic facts *)

Section FloatFacts.

Lemma Rsign_pos r : 0 < r -> Rsign r = Gt.
Proof.
  intros H. unfold Rsign.
  destruct (total_order_T r 0) as [[Hlt | Heq] | Hgt]; try reflexivity; lra.
Qed.

Lemma Rsign_neg r : r < 0 -> Rsign r = Lt.
Proof.
  intros H. unfold Rsign.
  destruct (total_order_T r 0) as [[Hlt | Heq] | Hgt]; try reflexivity; lra.
Qed.

Lemma Rsign_zero r : r = 0 -> Rsign r = Eq.
Proof.
  intros H. unfold Rsign.
  destruct (total_order_T r 0) as [[Hlt | Heq] | Hgt]; try reflexivity; lra.
Qed.

Lemma fin_eq a b : a = b -> fin a = fin b.
Proof. intros ->; reflexivity. Qed.

Lemma fmul_1_r x : fmul x (fin 1) = x.
Proof.
  destruct x as [ | s | r]; simpl.
  - reflexivity.
  - rewrite (Rsign_pos 1) by lra. reflexivity.
  - apply fin_eq. lra.
Qed.

Lemma fsqrt_1 : fsqrt (fin 1) = fin 1.
Proof.
  simpl. rewrite (Rsign_pos 1) by lra. now rewrite sqrt_1.
Qed.

Lemma fadd_0_r x : fadd x (fin 0) = x.
Proof. destruct x; simpl; try reflexivity. apply fin_eq; lra. Qed.

Lemma fsub_0_r x : fsub x (fin 0) = x.
Proof. destruct x; simpl; try reflexivity. apply fin_eq; lra. Qed.

Lemma fsub_sq_sym a b : fpow2 (fsub a b) = fpow2 (fsub b a).
Proof.
  unfold fpow2, fsub.
  destruct a as [ | [ | ] | x], b as [ | [ | ] | y]; simpl; try reflexivity.
  apply fin_eq; lra.
Qed.

End FloatFacts.

(** ** Lists and matrices *)

Section Matrices.

Lemma zip_with_map_seq {A} (f : float64 -> float64 -> A)
    (a b : nat -> float64) (l : list nat) :
  pd.zip_with f (map a l) (map b l) = map (fun n => f (a n) (b n)) l.
Proof.
  induction l as [ | n l IH]; simpl; [reflexivity | now rewrite IH].
Qed.

Lemma map_tabulate (h : float64 -> float64) f T N :
  map (map h) (tabulate f T N) = tabulate (fun t n => h (f t n)) T N.
Proof.
  unfold tabulate. rewrite map_map. apply map_ext. intros t.
  now rewrite map_map.
Qed.

Lemma tabulate_length f T N : List.length (tabulate f T N) = T.
Proof. unfold tabulate. now rewrite length_map, length_seq. Qed.

Lemma tabulate_rows f T N r :
  In r (tabulate f T N) -> List.length r = N.
Proof.
  unfold tabulate. rewrite in_map_iff. intros (t & <- & _).
  now rewrite length_map, length_seq.
Qed.

Lemma nth_map_seq {A} (g : nat -> A) (d : A) len k :
  (k < len)%nat -> nth k (map g (seq 0 len)) d = g k.
Proof.
  intros H.
  rewrite (nth_indep _ d (g 0%nat)) by (now rewrite length_map, length_seq).
  rewrite (map_nth g). now rewrite seq_nth.
Qed.

Lemma nth_tabulate f T N t n :
  (t < T)%nat -> (n < N)%nat ->
  nth n (nth t (tabulate f T N) []) nan = f t n.
Proof.
  intros Ht Hn. unfold tabulate.
  rewrite nth_map_seq by assumption.
  now rewrite nth_map_seq.
Qed.

Lemma draws_tabulate g T N :
  np.draws g T N = tabulate (fun t n => fin (g (t * N + n)%nat)) T N.
Proof. reflexivity. Qed.

(** Accumulating rows [s+1 ..] onto the prefix sums up to row [s] yields
    the prefix sums of those rows. *)
Lemma cumsum_from_prefix (f : nat -> nat -> float64) N len :
  forall s,
    np.cumsum_from
      (map (fun n => prefix_sum (fun i => f i n) s) (seq 0 N))
      (map (fun t => map (f t) (seq 0 N)) (seq (S s) len))
    = map (fun t => map (fun n => prefix_sum (fun i => f i n) t) (seq 0 N))
          (seq (S s) len).
Proof.
  induction len as [ | len IH]; intros s; simpl; [reflexivity | ].
  rewrite zip_with_map_seq.
  f_equal. apply (IH (S s)).
Qed.

Lemma cumsum0_tabulate f T N sh :
  data (np.cumsum0 {| shape := sh; data := tabulate f T N |})
  = tabulate (fun t n => prefix_sum (fun i => f i n) t) T N.
Proof.
  unfold np.cumsum0, tabulate; simpl.
  destruct T as [ | T]; [reflexivity | ].
  cbn [seq map]. f_equal.
  exact (cumsum_from_prefix f N T 0).
Qed.

End Matrices.

(** ** What [simulate] computes *)

Section Simulate.

Lemma tabulate_ext f f' T N :
  (forall t n, f t n = f' t n) -> tabulate f T N = tabulate f' T N.
Proof.
  intros H. unfold tabulate. apply map_ext. intros t.
  apply map_ext. intros n. apply H.
Qed.

Lemma prefix_sum_ext f f' t :
  (forall i, f i = f' i) -> prefix_sum f t = prefix_sum f' t.
Proof.
  intros H. induction t as [ | t IH]; simpl; [apply H | ].
  now rewrite IH, H.
Qed.

Lemma map_array_tabulate h sh f T N :
  np.map_array h {| shape := sh; data := tabulate f T N |}
  = {| shape := sh; data := tabulate (fun t n => h (f t n)) T N |}.
Proof. unfold np.map_array; simpl. now rewrite map_tabulate. Qed.

Lemma cumsum0_tabulate_array f T N sh :
  np.cumsum0 {| shape := sh; data := tabulate f T N |}
  = {| shape := sh;
       data := tabulate (fun t n => prefix_sum (fun i => f i n) t) T N |}.
Proof.
  rewrite <- (cumsum0_tabulate f T N sh). reflexivity.
Qed.

(** With non-negative dimensions [simulate] returns the specification's
    matrix, stores it on the instance, and advances the generator. *)
Lemma simulate_nonneg (e : Env) :
  (0 <= n_days (self e))%Z ->
  (0 <= n_simulations (self e))%Z ->
  let T := Z.to_nat (n_days (self e)) in
  let N := Z.to_nat (n_simulations (self e)) in
  let paths := gbm_matrix (self e) (random_state e) T N in
  simulate e =
    ({| self := with_paths (self e) paths;
        stdout := stdout e;
        random_state := fun k => random_state e (k + T * N)%nat |},
     Ok paths).
Proof.
  intros HT HN T N paths.
  unfold simulate, bind, get_self, np.randn.
  replace ((n_days (self e) <? 0)%Z) with false
    by (symmetry; apply Z.ltb_ge; assumption).
  replace ((n_simulations (self e) <? 0)%Z) with false
    by (symmetry; apply Z.ltb_ge; assumption).
  cbn [orb self stdout random_state].
  fold T N. rewrite draws_tabulate.
  unfold np.scalar_mul, np.mul_scalar, np.scalar_add, np.exp.
  rewrite !map_array_tabulate, cumsum0_tabulate_array, !map_array_tabulate.
  assert (Hp :
    {| shape := (T, N);
       data := tabulate
         (fun t n =>
            fmul (initial_capital (self e))
              (fexp (prefix_sum
                 (fun i =>
                    fadd (fmul (fsub (mu (self e))
                                  (fmul (fin 0.5) (fpow2 (sigma (self e)))))
                               (of_Z 1))
                         (fmul (fmul (sigma (self e))
                                     (fin (random_state e (i * N + n)%nat)))
                               (np.sqrt (of_Z 1)))) t))) T N |} = paths).
  { unfold paths, gbm_matrix. f_equal. apply tabulate_ext. intros t n.
    unfold gbm_value, drift_term. do 2 f_equal.
    apply prefix_sum_ext. intros i.
    unfold np.sqrt, of_Z. now rewrite fsqrt_1, !fmul_1_r. }
  rewrite Hp. reflexivity.
Qed.

(** A negative dimension makes [np.random.randn] raise; nothing is stored. *)
Lemma simulate_negative (e : Env) :
  (n_days (self e) < 0 \/ n_simulations (self e) < 0)%Z ->
  simulate e = (e, Raise (ValueError np.negative_dimensions_msg)).
Proof.
  intros H. unfold simulate, bind, get_self, np.randn.
  replace ((n_days (self e) <? 0) || (n_simulations (self e) <? 0))%Z
    with true; [reflexivity | ].
  symmetry. apply orb_true_iff.
  destruct H as [H | H]; [left | right]; now apply Z.ltb_lt.
Qed.

Lemma cell_gbm_matrix s g T N t n :
  (t < T)%nat -> (n < N)%nat ->
  cell (gbm_matrix s g T N) t n
  = gbm_value (initial_capital s) (mu s) (sigma s)
              (fun i => g (i * N + n)%nat) t.
Proof.
  intros Ht Hn. unfold cell, gbm_matrix; simpl.
  now rewrite nth_tabulate.
Qed.

Lemma gbm_value_ext C0 m sg z z' t :
  (forall i, (i <= t)%nat -> z i = z' i) ->
  gbm_value C0 m sg z t = gbm_value C0 m sg z' t.
Proof.
  intros H. unfold gbm_value. do 2 f_equal.
  induction t as [ | t IH]; simpl.
  - now rewrite H.
  - rewrite IH by (intros i Hi; apply H; lia). now rewrite H.
Qed.

End Simulate.

(** ** Path generator *)

Section PathGenerator.

(** C1: for T >= 1 steps, N >= 1 paths and any matrix [z] of draws of
    shape (T, N), [simulate] returns a matrix of shape (T, N) whose cell
    [t, n] is [C0 * exp(sum_{i=0..t} ((mu - 0.5*sigma^2) + sigma * z[i,n]))]:
    one drift term, a per-cell log-return, a prefix sum along the time axis
    for each path, and [C0] times the exponential of that sum. *)
Theorem simulate_gbm_formula :
  forall (e : Env) (T N : nat) (z : nat -> nat -> R),
    (1 <= T)%nat -> (1 <= N)%nat ->
    n_days (self e) = Z.of_nat T ->
    n_simulations (self e) = Z.of_nat N ->
    (forall t n, (t < T)%nat -> (n < N)%nat ->
                 random_state e (t * N + n)%nat = z t n) ->
    exists e' paths,
      simulate e = (e', Ok paths) /\
      shape paths = (T, N) /\
      List.length (data paths) = T /\
      (forall r, In r (data paths) -> List.length r = N) /\
      forall t n, (t < T)%nat -> (n < N)%nat ->
        cell paths t n =
        fmul (initial_capital (self e))
             (fexp (prefix_sum
                      (fun i =>
                         fadd (fsub (mu (self e))
                                    (fmul (fin 0.5) (fpow2 (sigma (self e)))))
                              (fmul (sigma (self e)) (fin (z i n))))
                      t)).
Proof.
  intros e T N z HT HN HdT HdN Hz.
  pose proof (simulate_nonneg e) as Hs.
  rewrite HdT, HdN, !Nat2Z.id in Hs.
  specialize (Hs (Nat2Z.is_nonneg T) (Nat2Z.is_nonneg N)). cbv zeta in Hs.
  eexists _, _. split; [exact Hs | ].
  split; [reflexivity | ].
  split; [apply tabulate_length | ].
  split; [intros r; apply tabulate_rows | ].
  intros t n Ht Hn.
  rewrite cell_gbm_matrix by assumption.
  rewrite (gbm_value_ext _ _ _ _ (fun i => z i n)).
  - reflexivity.
  - intros i Hi. apply Hz; lia.
Qed.

Lemma simulate_gbm_formula_witness :
  exists e' paths,
    simulate env_2x2 = (e', Ok paths) /\
    shape paths = (2%nat, 2%nat) /\
    List.length (data paths) = 2%nat /\
    (forall r, In r (data paths) -> List.length r = 2%nat) /\
    forall t n, (t < 2)%nat -> (n < 2)%nat ->
      cell paths t n =
      fmul (fin 1000)
           (fexp (prefix_sum
                    (fun i =>
                       fadd (fsub (fin 0.00125)
                                  (fmul (fin 0.5) (fpow2 (fin 0))))
                            (fmul (fin 0) (fin (INR (i * 2 + n)))))
                    t)).
Proof.
  apply (simulate_gbm_formula env_2x2 2 2 (fun t n => INR (t * 2 + n)));
    [lia | lia | reflexivity | reflexivity | intros; reflexivity].
Defined.

Lemma drift_term_sigma_0 m : drift_term m (fin 0) = m.
Proof.
  unfold drift_term, fpow2. cbn [fmul].
  replace (0.5 * (0 * 0)) with 0 by lra. apply fsub_0_r.
Qed.

Lemma prefix_sum_const m t :
  prefix_sum (fun _ => m) t = fmul m (fin (INR (t + 1))).
Proof.
  induction t as [ | t IH].
  - simpl. symmetry. replace (0 + 1) with 1 by lra. apply fmul_1_r.
  - cbn [prefix_sum]. rewrite IH.
    assert (Hpos : 0 < INR (t + 1)) by (apply lt_0_INR; lia).
    assert (Hpos' : 0 < INR (S t + 1)) by (apply lt_0_INR; lia).
    destruct m as [ | s | r]; cbn [fmul fadd].
    + reflexivity.
    + rewrite (Rsign_pos _ Hpos), (Rsign_pos _ Hpos').
      destruct s; reflexivity.
    + apply fin_eq. rewrite !Nat.add_1_r, !S_INR. lra.
Qed.

Lemma gbm_value_sigma_0 C0 m z t :
  gbm_value C0 m (fin 0) z t = fmul C0 (fexp (fmul m (fin (INR (t + 1))))).
Proof.
  unfold gbm_value. rewrite drift_term_sigma_0.
  rewrite <- prefix_sum_const. do 2 f_equal.
  apply prefix_sum_ext. intros i. cbn [fmul].
  replace (0 * z i) with 0 by lra. apply fadd_0_r.
Qed.

(** C2: with [sigma = 0] and any [mu], [simulate] is deterministic and
    every cell is [C0 * exp(mu * (t+1))], whatever the random draws. *)
Theorem simulate_sigma_zero_deterministic :
  forall (e : Env) (T N : nat),
    n_days (self e) = Z.of_nat T ->
    n_simulations (self e) = Z.of_nat N ->
    sigma (self e) = fin 0 ->
    exists e' paths,
      simulate e = (e', Ok paths) /\
      (forall t n, (t < T)%nat -> (n < N)%nat ->
         cell paths t n =
         fmul (initial_capital (self e))
              (fexp (fmul (mu (self e)) (fin (INR (t + 1)))))) /\
      (forall g out,
         snd (simulate {| self := self e; stdout := out; random_state := g |})
         = Ok paths).
Proof.
  intros e T N HdT HdN Hsig.
  assert (Hrun : forall e0, self e0 = self e ->
            simulate e0 =
              ({| self := with_paths (self e)
                            (gbm_matrix (self e) (random_state e0) T N);
                  stdout := stdout e0;
                  random_state := fun k => random_state e0 (k + T * N)%nat |},
               Ok (gbm_matrix (self e) (random_state e0) T N))).
  { intros e0 He0. pose proof (simulate_nonneg e0) as Hs.
    rewrite He0, HdT, HdN, !Nat2Z.id in Hs.
    exact (Hs (Nat2Z.is_nonneg T) (Nat2Z.is_nonneg N)). }
  assert (Hdet : forall g, gbm_matrix (self e) g T N
                           = gbm_matrix (self e) (random_state e) T N).
  { intros g. unfold gbm_matrix. f_equal. apply tabulate_ext. intros t n.
    now rewrite Hsig, !gbm_value_sigma_0. }
  eexists _, _. split; [apply (Hrun e eq_refl) | ]. split.
  - intros t n Ht Hn. rewrite cell_gbm_matrix by assumption.
    rewrite Hsig. apply gbm_value_sigma_0.
  - intros g out. rewrite Hrun by reflexivity. simpl. now rewrite Hdet.
Qed.

Lemma simulate_sigma_zero_deterministic_witness :
  exists e' paths,
    simulate env_2x2 = (e', Ok paths) /\
    (forall t n, (t < 2)%nat -> (n < 2)%nat ->
       cell paths t n =
       fmul (fin 1000) (fexp (fmul (fin 0.00125) (fin (INR (t + 1)))))) /\
    (forall g out,
       snd (simulate {| self := sim_2x2; stdout := out; random_state := g |})
       = Ok paths).
Proof.
  apply (simulate_sigma_zero_deterministic env_2x2 2 2);
    reflexivity.
Defined.

End PathGenerator.

(** ** Calibrator *)

Section Tables.

Lemma contains_lookup name df :
  pd.contains name df
  = match pd.lookup name df with Some _ => true | None => false end.
Proof.
  unfold pd.contains, pd.columns.
  induction df as [ | [c s] df IH]; simpl; [reflexivity | ].
  destruct (String.eqb name c); simpl; [reflexivity | exact IH].
Qed.

Lemma lookup_assign_same name s df :
  pd.lookup name (pd.assign name s df) = Some s.
Proof.
  induction df as [ | [c old] df IH]; simpl.
  - now rewrite String.eqb_refl.
  - destruct (String.eqb name c) eqn:E; simpl; rewrite E;
      [reflexivity | exact IH].
Qed.

Lemma lookup_assign_other name name' s df :
  name' <> name ->
  pd.lookup name' (pd.assign name s df) = pd.lookup name' df.
Proof.
  intros Hne.
  induction df as [ | [c old] df IH]; simpl.
  - destruct (String.eqb name' name) eqn:E; [ | reflexivity].
    apply String.eqb_eq in E. contradiction.
  - destruct (String.eqb name c) eqn:E; simpl.
    + apply String.eqb_eq in E. subst c.
      destruct (String.eqb name' name) eqn:E'; [ | reflexivity].
      apply String.eqb_eq in E'. contradiction.
    + destruct (String.eqb name' c); [reflexivity | exact IH].
Qed.

(** Assigning a column that is absent appends it. *)
Lemma assign_absent name s df :
  pd.lookup name df = None -> pd.assign name s df = (df ++ [(name, s)])%list.
Proof.
  induction df as [ | [c old] df IH]; simpl; [reflexivity | ].
  destruct (String.eqb name c); [discriminate | ].
  intros H. now rewrite IH.
Qed.

(** [__init__] by cases on the columns of the table. *)
Lemma init_cases C0 T N vm df :
  __init__ C0 T N vm df =
  match pd.lookup "pnl_pct" df with
  | Some s => (df, Ok (calibrated (pd.dropna s) C0 T N vm))
  | None =>
      match pd.lookup "close" df with
      | Some c =>
          (pd.assign "pnl_pct" (pd.pct_change c) df,
           Ok (calibrated (pd.dropna (pd.pct_change c)) C0 T N vm))
      | None => (df, Raise (ValueError missing_columns_msg))
      end
  end.
Proof.
  unfold __init__, bind, get, pd.getitem, pd.setitem.
  rewrite !contains_lookup.
  destruct (pd.lookup "pnl_pct" df) as [s | ] eqn:Hp; cbn [negb ret].
  - rewrite Hp. reflexivity.
  - destruct (pd.lookup "close" df) as [c | ] eqn:Hc; cbn [negb raise].
    + rewrite Hc, lookup_assign_same. reflexivity.
    + reflexivity.
Qed.

Lemma dropna_valid s : forallb (fun x => negb (isnan x)) (pd.dropna s) = true.
Proof.
  unfold pd.dropna. apply forallb_forall. intros x Hx.
  now apply filter_In in Hx.
Qed.

Lemma dropna_id xs :
  forallb (fun x => negb (isnan x)) xs = true -> pd.dropna xs = xs.
Proof.
  unfold pd.dropna. induction xs as [ | x xs IH]; simpl; [reflexivity | ].
  intros H. apply andb_true_iff in H as [Hx Hxs].
  rewrite Hx. now rewrite IH.
Qed.

End Tables.

Section Statistics.

Lemma mean_valid xs :
  forallb (fun x => negb (isnan x)) xs = true -> xs <> [] ->
  pd.mean xs = arithmetic_mean xs.
Proof.
  intros Hv Hne. unfold pd.mean, arithmetic_mean.
  rewrite (dropna_id xs Hv).
  destruct xs as [ | x xs]; [contradiction | reflexivity].
Qed.

(** Sample standard deviation of a single valid value: [0/0], or
    [inf - inf], both [nan]. *)
Lemma sample_std_singleton x : isnan x = false -> sample_std [x] = nan.
Proof.
  intros Hx. unfold sample_std, sum_sq_dev, arithmetic_mean, fsum, of_nat.
  cbn [List.length map fold_left].
  destruct x as [ | s | r]; [discriminate | | ].
  - cbn [fadd fdiv]. change (INR 1) with 1.
    rewrite (Rsign_pos 1) by lra.
    destruct s; reflexivity.
  - change (INR 1) with 1. cbn [fadd fdiv].
    rewrite (Rsign_pos 1) by lra.
    unfold fpow2, fsub. cbn [fneg fadd fmul fdiv].
    rewrite (Rsign_zero (1 - 1)) by lra.
    rewrite Rsign_zero by lra. reflexivity.
Qed.

Lemma var_valid xs :
  forallb (fun x => negb (isnan x)) xs = true ->
  (2 <= List.length xs)%nat ->
  pd.var 1 xs = fdiv (sum_sq_dev xs) (fin (INR (List.length xs) - 1)).
Proof.
  intros Hv Hlen. unfold pd.var, sum_sq_dev, arithmetic_mean.
  rewrite (dropna_id xs Hv).
  destruct (Nat.leb_spec (List.length xs) 1) as [Hle | _]; [lia | ].
  unfold of_nat. rewrite minus_INR by lia. change (INR 1) with 1.
  f_equal. f_equal. apply map_ext. intros v. apply fsub_sq_sym.
Qed.

Lemma std_valid xs :
  forallb (fun x => negb (isnan x)) xs = true -> xs <> [] ->
  pd.std xs = sample_std xs.
Proof.
  intros Hv Hne. unfold pd.std.
  destruct xs as [ | x [ | y xs]]; [contradiction | | ].
  - rewrite sample_std_singleton.
    + unfold pd.var. rewrite (dropna_id [x] Hv). reflexivity.
    + simpl in Hv. now destruct (isnan x).
  - rewrite var_valid by (simpl; (assumption || lia)). reflexivity.
Qed.

(** numpy's [std] is the population formula, for every row. *)
Lemma np_std_population xs : np.std xs = population_std xs.
Proof.
  unfold np.std, np.var, population_std, sum_sq_dev, arithmetic_mean, of_nat.
  rewrite Nat.sub_0_r, Nat.max_0_r, map_map. reflexivity.
Qed.

Lemma np_mean_arithmetic xs : np.mean xs = arithmetic_mean xs.
Proof. reflexivity. Qed.

End Statistics.

Section Calibrator.

(** C3: when the cleaned return series (the 'pnl_pct' column, or the
    percentage change of 'close' when 'pnl_pct' is absent, missing values
    dropped) is not empty, the calibrated mu is its arithmetic mean and the
    calibrated sigma is its sample standard deviation (divisor N-1) times
    the volatility multiplier, 1.0 by default. *)
Theorem calibration_mean_and_sample_std :
  forall (df : pd.DataFrame) (C0 : float64) (T N : Z) (vm : option float64)
         (xs : pd.Series),
    cleaned_returns df = Some xs ->
    xs <> [] ->
    exists df' sim,
      __init__ C0 T N vm df = (df', Ok sim) /\
      returns sim = xs /\
      mu sim = arithmetic_mean xs /\
      sigma sim = fmul (sample_std xs)
                       (match vm with Some k => k | None => fin 1 end).
Proof.
  intros df C0 T N vm xs Hc Hne.
  rewrite init_cases. unfold cleaned_returns in Hc.
  assert (Hcal : forall s, pd.dropna s = xs ->
            returns (calibrated (pd.dropna s) C0 T N vm) = xs /\
            mu (calibrated (pd.dropna s) C0 T N vm) = arithmetic_mean xs /\
            sigma (calibrated (pd.dropna s) C0 T N vm)
            = fmul (sample_std xs)
                   (match vm with Some k => k | None => fin 1 end)).
  { intros s Hs. cbn [returns mu sigma calibrated].
    pose proof (dropna_valid s) as Hv. rewrite Hs in *.
    rewrite mean_valid, std_valid by assumption. auto. }
  destruct (pd.lookup "pnl_pct" df) as [s | ].
  - injection Hc as Hc. eexists _, _. split; [reflexivity | now apply Hcal].
  - destruct (pd.lookup "close" df) as [c | ]; [ | discriminate].
    injection Hc as Hc. eexists _, _. split; [reflexivity | now apply Hcal].
Qed.

Lemma calibration_mean_and_sample_std_witness :
  exists df' sim,
    __init__ (fin 1000) 252 50 None table_returns = (df', Ok sim) /\
    returns sim = [fin 0.01; fin 0.03] /\
    mu sim = arithmetic_mean [fin 0.01; fin 0.03] /\
    sigma sim = fmul (sample_std [fin 0.01; fin 0.03]) (fin 1).
Proof.
  apply (calibration_mean_and_sample_std table_returns (fin 1000) 252 50 None
           [fin 0.01; fin 0.03]).
  - reflexivity.
  - discriminate.
Defined.

End Calibrator.

Section CalibratorErrors.

(** C4, as the specification states it, fails: an empty cleaned series and
    a price series of a single point are both accepted by the constructor,
    which then stores [nan] parameters. *)
Lemma empty_series_does_not_raise :
  (cleaned_returns table_empty_returns = Some [] /\
   exists sim,
     __init__ (fin 1000) 252 50 None table_empty_returns
     = (table_empty_returns, Ok sim) /\
     mu sim = nan /\ sigma sim = nan) /\
  (pd.lookup "close" table_one_price = Some [fin 100] /\
   cleaned_returns table_one_price = Some [] /\
   exists df' sim,
     __init__ (fin 1000) 252 50 None table_one_price = (df', Ok sim) /\
     mu sim = nan /\ sigma sim = nan).
Proof.
  split.
  - split; [reflexivity | ].
    eexists. rewrite init_cases. cbn [pd.lookup table_empty_returns].
    rewrite String.eqb_refl. repeat split; reflexivity.
  - split; [reflexivity | ]. split; [reflexivity | ].
    eexists _, _. rewrite init_cases. repeat split; reflexivity.
Qed.

(** C4 (amended): the constructor raises exactly when the table has
    neither a 'pnl_pct' nor a 'close' column, and the error is then the
    [ValueError] naming the two columns; in every other case, including an
    empty cleaned series, construction succeeds. *)
Theorem calibration_raises_iff_no_column :
  forall (df : pd.DataFrame) (C0 : float64) (T N : Z) (vm : option float64),
    (raises (snd (__init__ C0 T N vm df)) = true <->
     pd.contains "pnl_pct" df = false /\ pd.contains "close" df = false) /\
    (raises (snd (__init__ C0 T N vm df)) = true <->
     __init__ C0 T N vm df = (df, Raise (ValueError missing_columns_msg))) /\
    (raises (snd (__init__ C0 T N vm df)) = false <->
     exists df' sim, __init__ C0 T N vm df = (df', Ok sim)).
Proof.
  intros df C0 T N vm. rewrite init_cases, !contains_lookup.
  destruct (pd.lookup "pnl_pct" df) as [s | ];
    [ | destruct (pd.lookup "close" df) as [c | ]]; cbn [snd raises].
  - repeat split; try discriminate; try (intros [? ?]; discriminate).
    intros _. eexists _, _. reflexivity.
  - repeat split; try discriminate; try (intros [? ?]; discriminate).
    intros _. eexists _, _. reflexivity.
  - repeat split; try discriminate; try reflexivity.
    intros (? & ? & ?). discriminate.
Qed.

(** C5, as the specification states it, fails: calibrating a table that has
    a 'close' column and no 'pnl_pct' column changes the caller's table. *)
Lemma calibration_modifies_price_table :
  pd.contains "close" table_close = true /\
  pd.contains "pnl_pct" table_close = false /\
  fst (__init__ (fin 1000) 252 50 None table_close) <> table_close /\
  pd.contains "pnl_pct" (fst (__init__ (fin 1000) 252 50 None table_close))
  = true.
Proof.
  split; [reflexivity | ]. split; [reflexivity | ].
  rewrite init_cases. cbn [pd.lookup table_close fst].
  change (String.eqb "pnl_pct" "close") with false.
  rewrite String.eqb_refl. cbn [fst pd.assign].
  change (String.eqb "pnl_pct" "close") with false. cbn iota.
  split; [discriminate | reflexivity].
Qed.

(** C5 (amended): the only change calibration makes to the caller's table
    is to append a 'pnl_pct' column, holding the percentage change of
    'close', when the table has 'close' and no 'pnl_pct'; the table is left
    unchanged when it has a 'pnl_pct' column and when the constructor
    raises, and the columns already present are never changed. *)
Theorem calibration_frame :
  forall (df : pd.DataFrame) (C0 : float64) (T N : Z) (vm : option float64),
    let df' := fst (__init__ C0 T N vm df) in
    (pd.contains "pnl_pct" df = true -> df' = df) /\
    (raises (snd (__init__ C0 T N vm df)) = true -> df' = df) /\
    (forall c, pd.lookup "pnl_pct" df = None ->
               pd.lookup "close" df = Some c ->
               df' = (df ++ [("pnl_pct", pd.pct_change c)])%list) /\
    (forall name, name <> "pnl_pct" -> pd.lookup name df' = pd.lookup name df).
Proof.
  intros df C0 T N vm df'. subst df'.
  rewrite init_cases, contains_lookup.
  destruct (pd.lookup "pnl_pct" df) as [s | ] eqn:Hp;
    [ | destruct (pd.lookup "close" df) as [c | ] eqn:Hc]; cbn [fst snd raises].
  - repeat split; try reflexivity; discriminate.
  - repeat split; try discriminate.
    + intros c' _ Hc'. injection Hc' as <-. now apply assign_absent.
    + intros name Hne. now apply lookup_assign_other.
  - repeat split; try reflexivity; discriminate.
Qed.

(** C6, as the specification states it, fails: the constructor accepts zero
    time steps, a negative number of paths, zero capital and a negative
    volatility multiplier. *)
Lemma constructor_accepts_invalid_configuration :
  exists sim,
    __init__ (fin 0) 0 (-3) (Some (fin (-1))) table_returns
    = (table_returns, Ok sim) /\
    initial_capital sim = fin 0 /\
    n_days sim = 0%Z /\
    n_simulations sim = (-3)%Z.
Proof.
  eexists. rewrite init_cases. repeat split; reflexivity.
Qed.

(** C6 (amended): the constructor does not validate the configuration: for
    every table with a 'pnl_pct' or a 'close' column it succeeds whatever
    the number of time steps, the number of paths, the initial capital and
    the volatility multiplier are, and stores the first three as given;
    whether it raises depends on the table alone. *)
Theorem constructor_does_not_validate :
  forall (df : pd.DataFrame) (C0 : float64) (T N : Z) (vm : option float64),
    (pd.contains "pnl_pct" df = true \/ pd.contains "close" df = true ->
     exists df' sim,
       __init__ C0 T N vm df = (df', Ok sim) /\
       initial_capital sim = C0 /\
       n_days sim = T /\
       n_simulations sim = N) /\
    (forall C0' T' N' vm',
       raises (snd (__init__ C0 T N vm df))
       = raises (snd (__init__ C0' T' N' vm' df))).
Proof.
  intros df C0 T N vm. split.
  - rewrite init_cases, !contains_lookup.
    destruct (pd.lookup "pnl_pct" df) as [s | ];
      [ | destruct (pd.lookup "close" df) as [c | ]].
    + intros _. eexists _, _. repeat split; reflexivity.
    + intros _. eexists _, _. repeat split; reflexivity.
    + intros [H | H]; discriminate.
  - intros C0' T' N' vm'. rewrite !init_cases.
    destruct (pd.lookup "pnl_pct" df) as [s | ];
      [ | destruct (pd.lookup "close" df) as [c | ]]; reflexivity.
Qed.

(** C10: when the table has both a 'pnl_pct' and a 'close' column, the
    return series is the 'pnl_pct' column with missing values dropped, the
    table is not touched, and the 'close' column is never consulted: any
    other 'close' column gives the same simulator. *)
Theorem returns_column_takes_precedence :
  forall (df : pd.DataFrame) (s c : pd.Series) (C0 : float64) (T N : Z)
         (vm : option float64),
    pd.lookup "pnl_pct" df = Some s ->
    pd.lookup "close" df = Some c ->
    exists sim,
      __init__ C0 T N vm df = (df, Ok sim) /\
      returns sim = pd.dropna s /\
      mu sim = pd.mean (pd.dropna s) /\
      sigma sim = fmul (pd.std (pd.dropna s))
                       (match vm with Some k => k | None => fin 1 end) /\
      forall c', snd (__init__ C0 T N vm (pd.assign "close" c' df)) = Ok sim.
Proof.
  intros df s c C0 T N vm Hp Hc.
  exists (calibrated (pd.dropna s) C0 T N vm).
  rewrite init_cases, Hp. repeat split.
  intros c'. rewrite init_cases.
  rewrite lookup_assign_other by discriminate.
  now rewrite Hp.
Qed.

Lemma returns_column_takes_precedence_witness :
  exists sim,
    __init__ (fin 1000) 252 50 None table_returns = (table_returns, Ok sim) /\
    returns sim = pd.dropna [fin 0.01; nan; fin 0.03] /\
    mu sim = pd.mean (pd.dropna [fin 0.01; nan; fin 0.03]) /\
    sigma sim = fmul (pd.std (pd.dropna [fin 0.01; nan; fin 0.03])) (fin 1) /\
    forall c',
      snd (__init__ (fin 1000) 252 50 None (pd.assign "close" c' table_returns))
      = Ok sim.
Proof.
  apply (returns_column_takes_precedence table_returns
           [fin 0.01; nan; fin 0.03] [fin 100; fin 101; fin 99]);
    reflexivity.
Defined.

End CalibratorErrors.

(** ** Failure of [simulate] *)

Section SimulateFailure.

(** C7, as the specification states it, fails: with zero time steps
    [simulate] completes and returns an empty matrix. *)
Lemma simulate_zero_steps_succeeds :
  (n_days (self env_zero_days) < 1)%Z /\
  exists e' paths,
    simulate env_zero_days = (e', Ok paths) /\
    shape paths = (0%nat, 1%nat) /\
    data paths = [].
Proof.
  split; [reflexivity | ].
  eexists _, _. split.
  - apply simulate_nonneg; discriminate.
  - split; reflexivity.
Qed.

(** C7 (amended): [simulate] raises numpy's [ValueError], leaving the
    instance unchanged, whenever the number of time steps or the number of
    paths is negative.  Fewer than one time step or path is not by itself a
    failure: with zero time steps and one path the call succeeds and
    returns an empty matrix.  Whenever [simulate] succeeds, T and N are
    non-negative and the result has shape (T, N). *)
Theorem simulate_fails_on_negative_dimension :
  (forall e : Env,
     (n_days (self e) < 0 \/ n_simulations (self e) < 0)%Z ->
     exists msg, simulate e = (e, Raise (ValueError msg))) /\
  (forall (e e' : Env) (paths : ndarray),
     simulate e = (e', Ok paths) ->
     (0 <= n_days (self e))%Z /\
     (0 <= n_simulations (self e))%Z /\
     shape paths
     = (Z.to_nat (n_days (self e)), Z.to_nat (n_simulations (self e)))) /\
  (exists e : Env,
     n_days (self e) = 0%Z /\ n_simulations (self e) = 1%Z /\
     exists e' paths,
       simulate e = (e', Ok paths) /\
       shape paths = (0%nat, 1%nat) /\ data paths = []).
Proof.
  split; [ | split].
  - intros e H. rewrite (simulate_negative e H). eexists. reflexivity.
  - intros e e' paths Hs.
    destruct (Z.lt_ge_cases (n_days (self e)) 0) as [HT | HT].
    { rewrite simulate_negative in Hs by (left; assumption). discriminate. }
    destruct (Z.lt_ge_cases (n_simulations (self e)) 0) as [HN | HN].
    { rewrite simulate_negative in Hs by (right; assumption). discriminate. }
    rewrite (simulate_nonneg e HT HN) in Hs. injection Hs as _ <-.
    repeat split; assumption.
  - exists env_zero_days. split; [reflexivity | ]. split; [reflexivity | ].
    eexists _, _. split; [apply simulate_nonneg; discriminate | ].
    split; reflexivity.
Qed.

End SimulateFailure.

(** ** Summarizer *)

Section Summarizer.

Lemma summary_cases (e : Env) :
  summary e =
  ({| self := self e;
      stdout := stdout e ++ summary_header (self e) ++ fst (summary_outcome e);
      random_state := random_state e |},
   snd (summary_outcome e)).
Proof.
  unfold summary, summary_outcome, bind, get_self, print, lift, raise.
  cbn [self stdout random_state].
  destruct (simulated_paths (self e)) as [paths | ].
  - destruct (np.row paths (-1)) as [[ | x rest] | ex];
      cbn [np.min np.max fst snd self stdout random_state];
      unfold summary_header, distribution_lines;
      repeat rewrite <- app_assoc; reflexivity.
  - cbn [fst snd]. repeat rewrite <- app_assoc. reflexivity.
Qed.

End Summarizer.

Section SummarizerClaims.

Lemma row_raises_index_error a i ex :
  np.row a i = Raise ex -> ex = IndexError np.out_of_bounds_msg.
Proof.
  unfold np.row.
  destruct ((0 <=? _) && _)%Z; [discriminate | ].
  now intros [= <-].
Qed.

Lemma nth_tabulate_row f T N t :
  (t < T)%nat -> nth t (tabulate f T N) [] = map (f t) (seq 0 N).
Proof.
  intros Ht. unfold tabulate. now rewrite nth_map_seq.
Qed.

Lemma row_last_gbm s g T N :
  (1 <= T)%nat ->
  np.row (gbm_matrix s g T N) (-1)
  = Ok (map (fun n => gbm_value (initial_capital s) (mu s) (sigma s)
                                (fun i => g (i * N + n)%nat) (T - 1))
            (seq 0 N)).
Proof.
  intros HT. unfold np.row, gbm_matrix. cbn [shape data fst].
  change (-1 <? 0)%Z with true. cbn iota.
  replace ((0 <=? -1 + Z.of_nat T) && (-1 + Z.of_nat T <? Z.of_nat T))%Z
    with true
    by (symmetry; apply andb_true_iff; split;
        [apply Z.leb_le | apply Z.ltb_lt]; lia).
  replace (Z.to_nat (-1 + Z.of_nat T)) with (T - 1)%nat by lia.
  rewrite nth_tabulate_row by lia. reflexivity.
Qed.

(** C8, as the specification states it, fails: with zero time steps
    [simulate] succeeds and stores an empty matrix, and [summary] then
    raises [IndexError] on its last row. *)
Lemma summary_raises_after_successful_simulate :
  exists e' paths,
    simulate env_zero_days = (e', Ok paths) /\
    simulated_paths (self e') = Some paths /\
    snd (summary e') = Raise (IndexError np.out_of_bounds_msg).
Proof.
  eexists _, _. split; [apply simulate_nonneg; discriminate | ].
  split; [reflexivity | ].
  rewrite summary_cases. reflexivity.
Qed.

(** C8 (amended): [summary] raises the "run simulate() first" [ValueError]
    exactly when no Path Matrix is stored on the instance; after a
    successful [simulate] with at least one time step and at least one path
    it does not raise; and no [summary] call changes the instance. *)
Theorem summary_requires_simulation :
  forall e : Env,
    (snd (summary e) = Raise (ValueError not_simulated_msg) <->
     simulated_paths (self e) = None) /\
    self (fst (summary e)) = self e /\
    (forall e0 paths,
       simulate e0 = (e, Ok paths) ->
       (1 <= n_days (self e0))%Z ->
       (1 <= n_simulations (self e0))%Z ->
       snd (summary e) = Ok tt).
Proof.
  intros e. rewrite summary_cases. cbn [fst snd self].
  split; [ | split; [reflexivity | ]].
  - unfold summary_outcome.
    destruct (simulated_paths (self e)) as [paths | ]; [ | tauto].
    split; [ | discriminate].
    destruct (np.row paths (-1)) as [[ | x rest] | ex] eqn:Hr; cbn [snd].
    + discriminate.
    + discriminate.
    + apply row_raises_index_error in Hr. subst ex. discriminate.
  - intros e0 paths Hsim HT HN.
    rewrite simulate_nonneg in Hsim by lia.
    injection Hsim as He _. subst e.
    unfold summary_outcome. cbn [self simulated_paths with_paths].
    rewrite row_last_gbm by lia.
    destruct (Z.to_nat (n_simulations (self e0))) as [ | N'] eqn:EN; [lia | ].
    reflexivity.
Qed.

(** Population and sample standard deviation differ on the row [1, 3]. *)
Lemma population_std_1_3 : population_std [fin 1; fin 3] = fin 1.
Proof.
  unfold population_std, sum_sq_dev, arithmetic_mean, fsum, of_nat, fpow2,
    fsub.
  cbn [List.length map fold_left fadd fneg INR].
  cbn [fdiv]. rewrite (Rsign_pos (1 + 1)) by lra.
  cbn [fadd fneg fmul fdiv]. rewrite (Rsign_pos (1 + 1)) by lra.
  cbn [fsqrt].
  match goal with
  | |- context [Rsign ?v] => replace v with 1 by field
  end.
  rewrite (Rsign_pos 1) by lra. now rewrite sqrt_1.
Qed.

Lemma sample_std_1_3 : sample_std [fin 1; fin 3] = fin (sqrt 2).
Proof.
  unfold sample_std, sum_sq_dev, arithmetic_mean, fsum, of_nat, fpow2, fsub.
  cbn [List.length map fold_left fadd fneg INR].
  cbn [fdiv]. rewrite (Rsign_pos (1 + 1)) by lra.
  cbn [fadd fneg fmul fdiv]. rewrite (Rsign_pos (1 + 1 - 1)) by lra.
  cbn [fsqrt].
  match goal with
  | |- context [Rsign ?v] => replace v with 2 by field
  end.
  rewrite (Rsign_pos 2) by lra. reflexivity.
Qed.

(** C9: the standard deviation [summary] prints for the terminal row (the
    last row of the stored Path Matrix, N values) is the population
    standard deviation, divisor N; it is not the sample standard deviation:
    on the terminal row [1, 3] the two differ. *)
Theorem summary_std_is_population_std :
  forall (e : Env) (paths : ndarray) (xs : list float64),
    simulated_paths (self e) = Some paths ->
    np.row paths (-1) = Ok xs ->
    xs <> [] ->
    (exists lo hi,
       stdout (fst (summary e)) =
       (stdout e ++ summary_header (self e) ++
        [distribution_title;
         PMoney "Min             : " lo;
         PMoney "Max             : " hi;
         PMoney "Mean            : " (arithmetic_mean xs);
         PMoney "Std Dev         : "
                (fsqrt (fdiv (sum_sq_dev xs) (fin (INR (List.length xs)))));
         PMoney "5th Percentile  : " (np.percentile xs 5);
         PMoney "80th Percentile : " (np.percentile xs 80)])%list) /\
    np.std [fin 1; fin 3] <> sample_std [fin 1; fin 3].
Proof.
  intros e paths xs Hp Hr Hne. split.
  - rewrite summary_cases. cbn [fst stdout].
    unfold summary_outcome. rewrite Hp, Hr.
    destruct xs as [ | x rest]; [contradiction | ].
    cbn [fst]. unfold distribution_lines.
    rewrite np_std_population, np_mean_arithmetic.
    eexists _, _. reflexivity.
  - rewrite np_std_population, population_std_1_3, sample_std_1_3.
    intros [= H].
    assert (Hsq : sqrt 2 * sqrt 2 = 2) by (apply sqrt_sqrt; lra).
    rewrite <- H in Hsq. lra.
Qed.

Lemma summary_std_is_population_std_witness :
  (exists lo hi,
     stdout (fst (summary env_terminal_1_3)) =
     ([] ++ summary_header sim_terminal_1_3 ++
      [distribution_title;
       PMoney "Min             : " lo;
       PMoney "Max             : " hi;
       PMoney "Mean            : " (arithmetic_mean [fin 1; fin 3]);
       PMoney "Std Dev         : "
              (fsqrt (fdiv (sum_sq_dev [fin 1; fin 3]) (fin (INR 2))));
       PMoney "5th Percentile  : " (np.percentile [fin 1; fin 3] 5);
       PMoney "80th Percentile : " (np.percentile [fin 1; fin 3] 80)])%list) /\
  np.std [fin 1; fin 3] <> sample_std [fin 1; fin 3].
Proof.
  apply (summary_std_is_population_std env_terminal_1_3
           {| shape := (1%nat, 2%nat); data := [[fin 1; fin 3]] |}
           [fin 1; fin 3]).
  - reflexivity.
  - reflexivity.
  - discriminate.
Defined.

End SummarizerClaims.

(** ** The specification's concrete scenarios, run on the model *)

Section Scenarios.

Ltac rsign :=
  match goal with
  | |- context [Rsign ?r] =>
      first [ rewrite (Rsign_pos r) by (cbn [INR]; lra)
            | rewrite (Rsign_neg r) by (cbn [INR]; lra)
            | rewrite (Rsign_zero r) by (cbn [INR]; lra) ]
  end.

Ltac float_eval :=
  repeat (cbn [fadd fsub fneg fmul fdiv fsqrt fexp fpow2 fsum of_nat of_Z
               fold_left map filter negb isnan List.length Nat.leb Nat.sub
               pd.dropna pd.mean pd.var pd.std];
          try rsign).

(** Prices [100, 101, 99] give the returns [nan, 0.01, -0.0198...]. *)
Example pct_change_prices :
  pd.pct_change [fin 100; fin 101; fin 99]
  = [nan; fin (101 / 100 - 1); fin (99 / 101 - 1)].
Proof.
  unfold pd.pct_change, pd.ffill. cbn [pd.ffill_from isnan pd.shift1
    removelast pd.zip_with].
  float_eval. reflexivity.
Qed.

(** Returns [0.01, -0.02, 0.015, 0.0] have mean 0.00125; with multiplier 0
    the volatility is 0. *)
Example scenario_calibration :
  __init__ (fin 1000) 1 1 (Some (fin 0)) table_scenario
  = (table_scenario,
     Ok {| returns := [fin 0.01; fin (-0.02); fin 0.015; fin 0];
           mu := fin 0.00125;
           sigma := fin 0;
           initial_capital := fin 1000;
           n_days := 1;
           n_simulations := 1;
           simulated_paths := None |}).
Proof.
  rewrite init_cases. cbn [pd.lookup table_scenario].
  rewrite String.eqb_refl. unfold calibrated.
  unfold pd.std, pd.var. float_eval.
  f_equal. f_equal. f_equal.
  - apply fin_eq. cbn [INR]. lra.
  - apply fin_eq. apply Rmult_0_r.
Qed.

(** One step, one path, volatility 0: the single value is
    [1000 * exp(0.00125)], whatever the generator draws. *)
Example scenario_simulation (g : nat -> R) (out : list printed) :
  forall sim,
    snd (__init__ (fin 1000) 1 1 (Some (fin 0)) table_scenario) = Ok sim ->
    exists paths,
      snd (simulate {| self := sim; stdout := out; random_state := g |})
      = Ok paths /\
      shape paths = (1%nat, 1%nat) /\
      data paths = [[fin (1000 * exp 0.00125)]].
Proof.
  intros sim. rewrite scenario_calibration. cbn [snd]. intros [= <-].
  eexists. rewrite simulate_nonneg by discriminate. cbn [snd].
  split; [reflexivity | ]. split; [reflexivity | ].
  unfold gbm_matrix. cbn [data self n_days n_simulations Z.to_nat
    Pos.to_nat Pos.iter_op Nat.add tabulate seq map initial_capital mu sigma].
  change (Pos.to_nat 1) with 1%nat. cbn [seq map].
  rewrite gbm_value_sigma_0. cbn [Nat.add INR fmul fexp].
  do 2 f_equal. apply fin_eq. f_equal. f_equal. lra.
Qed.

(** The percentiles of the terminal row [1, 3]: position [p/100 * (N-1)]
    between the two order statistics. *)
Example percentiles_1_3 :
  np.percentile [fin 3; fin 1] 5 = fin 1.1 /\
  np.percentile [fin 3; fin 1] 80 = fin 2.6.
Proof.
  unfold np.percentile, np.sort, np.lerp.
  cbn [existsb isnan orb List.length fold_right np.insert fle].
  destruct (Rle_dec 3 1) as [H | _]; [lra | ].
  cbn [np.insert fle]. split.
  - change (Z.to_nat (5 * (Z.of_nat 2 - 1) / 100)) with 0%nat.
    change (Z.to_nat (Z.min (5 * (Z.of_nat 2 - 1) / 100 + 1)
                            (Z.of_nat 2 - 1))) with 1%nat.
    change ((5 * (Z.of_nat 2 - 1)) mod 100)%Z with 5%Z.
    change (100 <=? 2 * 5)%Z with false.
    cbn [nth]. float_eval. apply fin_eq. lra.
  - change (Z.to_nat (80 * (Z.of_nat 2 - 1) / 100)) with 0%nat.
    change (Z.to_nat (Z.min (80 * (Z.of_nat 2 - 1) / 100 + 1)
                            (Z.of_nat 2 - 1))) with 1%nat.
    change ((80 * (Z.of_nat 2 - 1)) mod 100)%Z with 80%Z.
    change (100 <=? 2 * 80)%Z with true.
    cbn [nth]. float_eval. apply fin_eq. lra.
Qed.

End Scenarios.

(** ** Further properties of [simulate] *)

Section SimulateEffects.

Lemma tabulate_ext_in f f' T N :
  (forall t n, (t < T)%nat -> (n < N)%nat -> f t n = f' t n) ->
  tabulate f T N = tabulate f' T N.
Proof.
  intros H. unfold tabulate. apply map_ext_in. intros t Ht.
  apply in_seq in Ht. apply map_ext_in. intros n Hn. apply in_seq in Hn.
  apply H; lia.
Qed.

(** [simulate] stores the matrix it returns in the single slot of the
    instance, leaves every calibrated parameter and the configuration as
    they were, prints nothing, and advances the generator by exactly
    [T * N] draws. *)
Theorem simulate_updates_slot_and_generator :
  forall e : Env,
    (0 <= n_days (self e))%Z ->
    (0 <= n_simulations (self e))%Z ->
    exists paths,
      snd (simulate e) = Ok paths /\
      simulated_paths (self (fst (simulate e))) = Some paths /\
      returns (self (fst (simulate e))) = returns (self e) /\
      mu (self (fst (simulate e))) = mu (self e) /\
      sigma (self (fst (simulate e))) = sigma (self e) /\
      initial_capital (self (fst (simulate e))) = initial_capital (self e) /\
      n_days (self (fst (simulate e))) = n_days (self e) /\
      n_simulations (self (fst (simulate e))) = n_simulations (self e) /\
      stdout (fst (simulate e)) = stdout e /\
      forall k,
        random_state (fst (simulate e)) k
        = random_state e
            (k + Z.to_nat (n_days (self e))
                 * Z.to_nat (n_simulations (self e)))%nat.
Proof.
  intros e HT HN. rewrite (simulate_nonneg e HT HN). cbn [fst snd].
  eexists. repeat split.
Qed.

Lemma simulate_updates_slot_and_generator_witness :
  exists paths,
    snd (simulate env_2x2) = Ok paths /\
    simulated_paths (self (fst (simulate env_2x2))) = Some paths /\
    returns (self (fst (simulate env_2x2))) = returns sim_2x2 /\
    mu (self (fst (simulate env_2x2))) = mu sim_2x2 /\
    sigma (self (fst (simulate env_2x2))) = sigma sim_2x2 /\
    initial_capital (self (fst (simulate env_2x2))) = initial_capital sim_2x2 /\
    n_days (self (fst (simulate env_2x2))) = n_days sim_2x2 /\
    n_simulations (self (fst (simulate env_2x2))) = n_simulations sim_2x2 /\
    stdout (fst (simulate env_2x2)) = [] /\
    forall k,
      random_state (fst (simulate env_2x2)) k = INR (k + 2 * 2)%nat.
Proof.
  apply (simulate_updates_slot_and_generator env_2x2); simpl; lia.
Defined.

(** Calling [simulate] twice: the second matrix is built from the draws
    that follow the [T * N] draws of the first call, and it replaces the
    first matrix in the slot. *)
Theorem simulate_twice_overwrites :
  forall e : Env,
    (0 <= n_days (self e))%Z ->
    (0 <= n_simulations (self e))%Z ->
    let T := Z.to_nat (n_days (self e)) in
    let N := Z.to_nat (n_simulations (self e)) in
    exists e2 first second,
      simulate e = (fst (simulate e), Ok first) /\
      (simulate ;; simulate) e = (e2, Ok second) /\
      simulated_paths (self e2) = Some second /\
      shape second = (T, N) /\
      (forall t n, (t < T)%nat -> (n < N)%nat ->
         cell second t n
         = gbm_value (initial_capital (self e)) (mu (self e)) (sigma (self e))
             (fun i => random_state e (i * N + n + T * N)%nat) t) /\
      (forall k, random_state e2 k = random_state e (k + T * N + T * N)%nat).
Proof.
  intros e HT HN T N.
  unfold bind. rewrite (simulate_nonneg e HT HN). fold T N.
  set (e1 := {| self := with_paths (self e) _; stdout := _;
                random_state := _ |}).
  pose proof (simulate_nonneg e1 HT HN) as H2. cbv zeta in H2.
  change (n_days (self e1)) with (n_days (self e)) in H2.
  change (n_simulations (self e1)) with (n_simulations (self e)) in H2.
  fold T N in H2. rewrite H2.
  eexists _, _, _. repeat split.
  intros t n Ht Hn. rewrite cell_gbm_matrix by assumption. reflexivity.
Qed.

Lemma simulate_twice_overwrites_witness :
  exists e2 first second,
    simulate env_2x2 = (fst (simulate env_2x2), Ok first) /\
    (simulate ;; simulate) env_2x2 = (e2, Ok second) /\
    simulated_paths (self e2) = Some second /\
    shape second = (2%nat, 2%nat) /\
    (forall t n, (t < 2)%nat -> (n < 2)%nat ->
       cell second t n
       = gbm_value (fin 1000) (fin 0.00125) (fin 0)
           (fun i => INR (i * 2 + n + 2 * 2)%nat) t) /\
    (forall k, random_state e2 k = INR (k + 2 * 2 + 2 * 2)%nat).
Proof.
  apply (simulate_twice_overwrites env_2x2); simpl; lia.
Defined.

(** [simulate] reads the calibrated parameters, the configuration and the
    first [T * N] draws of the generator, and nothing else: two states that
    agree on these return the same matrix, whatever has been stored or
    printed before. *)
Theorem simulate_depends_on_first_draws :
  forall e1 e2 : Env,
    mu (self e1) = mu (self e2) ->
    sigma (self e1) = sigma (self e2) ->
    initial_capital (self e1) = initial_capital (self e2) ->
    n_days (self e1) = n_days (self e2) ->
    n_simulations (self e1) = n_simulations (self e2) ->
    (forall k,
       (k < Z.to_nat (n_days (self e1)) * Z.to_nat (n_simulations (self e1)))%nat ->
       random_state e1 k = random_state e2 k) ->
    snd (simulate e1) = snd (simulate e2).
Proof.
  intros e1 e2 Hmu Hsg HC HT HN Hg.
  destruct (Z.lt_ge_cases (n_days (self e1)) 0) as [H1 | H1].
  { rewrite !simulate_negative by (left; lia). reflexivity. }
  destruct (Z.lt_ge_cases (n_simulations (self e1)) 0) as [H2 | H2].
  { rewrite !simulate_negative by (right; lia). reflexivity. }
  rewrite !simulate_nonneg by lia. cbn [snd]. f_equal.
  unfold gbm_matrix. rewrite <- HT, <- HN, <- Hmu, <- Hsg, <- HC. f_equal.
  apply tabulate_ext_in. intros t n Ht Hn.
  apply gbm_value_ext. intros i Hi. apply Hg. nia.
Qed.

Lemma simulate_depends_on_first_draws_witness :
  snd (simulate env_2x2)
  = snd (simulate
           {| self := with_paths sim_2x2 {| shape := (0%nat, 0%nat); data := [] |};
              stdout := [PText "earlier output"];
              random_state := fun k => INR (Nat.min k 3) |}).
Proof.
  apply simulate_depends_on_first_draws; try reflexivity.
  intros k Hk. cbn in Hk. cbn [random_state env_2x2].
  f_equal. lia.
Defined.

End SimulateEffects.

Section PathShape.

Lemma fexp_range x :
  fexp x = nan \/ fexp x = inf false \/ exists y, 0 <= y /\ fexp x = fin y.
Proof.
  destruct x as [ | [ | ] | r]; cbn [fexp]; auto.
  - right. right. exists 0. split; [lra | reflexivity].
  - right. right. exists (exp r). split; [ | reflexivity].
    apply Rlt_le, exp_pos.
Qed.

Lemma fmul_capital_nonneg c x :
  0 <= c ->
  x = nan \/ x = inf false \/ (exists y, 0 <= y /\ x = fin y) ->
  fmul (fin c) x = nan \/ fmul (fin c) x = inf false \/
  exists r, 0 <= r /\ fmul (fin c) x = fin r.
Proof.
  intros Hc [-> | [-> | (y & Hy & ->)]]; cbn [fmul].
  - now left.
  - unfold Rsign. destruct (total_order_T c 0) as [[Hlt | Heq] | Hgt]; auto.
    lra.
  - right. right. exists (c * y). split; [ | reflexivity].
    now apply Rmult_le_pos.
Qed.

Lemma fmul_capital_nonpos c x :
  c <= 0 ->
  x = nan \/ x = inf false \/ (exists y, 0 <= y /\ x = fin y) ->
  fmul (fin c) x = nan \/ fmul (fin c) x = inf true \/
  exists r, r <= 0 /\ fmul (fin c) x = fin r.
Proof.
  intros Hc [-> | [-> | (y & Hy & ->)]]; cbn [fmul].
  - now left.
  - unfold Rsign. destruct (total_order_T c 0) as [[Hlt | Heq] | Hgt]; auto.
    lra.
  - right. right. exists (c * y). split; [nra | reflexivity].
Qed.

(** No simulated value has the sign opposite to the initial capital,
    whatever mu, sigma and the draws are: with a capital [c >= 0] every cell
    is [nan], [+inf] or a non-negative number, and with [c <= 0] every cell
    is [nan], [-inf] or a non-positive number. *)
Theorem simulated_values_keep_sign_of_capital :
  forall (e : Env) (c : R),
    (0 <= n_days (self e))%Z ->
    (0 <= n_simulations (self e))%Z ->
    initial_capital (self e) = fin c ->
    exists paths,
      snd (simulate e) = Ok paths /\
      forall t n,
        (t < Z.to_nat (n_days (self e)))%nat ->
        (n < Z.to_nat (n_simulations (self e)))%nat ->
        (0 <= c ->
         cell paths t n = nan \/ cell paths t n = inf false \/
         exists r, 0 <= r /\ cell paths t n = fin r) /\
        (c <= 0 ->
         cell paths t n = nan \/ cell paths t n = inf true \/
         exists r, r <= 0 /\ cell paths t n = fin r).
Proof.
  intros e c HT HN HC.
  rewrite (simulate_nonneg e HT HN). cbn [snd].
  eexists. split; [reflexivity | ].
  intros t n Ht Hn. rewrite cell_gbm_matrix by assumption. rewrite HC.
  unfold gbm_value. split; intros Hc.
  - apply fmul_capital_nonneg; [exact Hc | apply fexp_range].
  - apply fmul_capital_nonpos; [exact Hc | apply fexp_range].
Qed.

Lemma simulated_values_keep_sign_of_capital_witness :
  exists paths,
    snd (simulate env_2x2) = Ok paths /\
    forall t n,
      (t < 2)%nat -> (n < 2)%nat ->
      (0 <= 1000 ->
       cell paths t n = nan \/ cell paths t n = inf false \/
       exists r, 0 <= r /\ cell paths t n = fin r) /\
      (1000 <= 0 ->
       cell paths t n = nan \/ cell paths t n = inf true \/
       exists r, r <= 0 /\ cell paths t n = fin r).
Proof.
  apply (simulated_values_keep_sign_of_capital env_2x2 1000);
    first [reflexivity | simpl; lia].
Defined.

Lemma prefix_sum_nan f t : (forall i, f i = nan) -> prefix_sum f t = nan.
Proof.
  intros H. induction t as [ | t IH]; simpl; [apply H | ].
  now rewrite IH.
Qed.

Lemma gbm_value_nan C0 m sg z t :
  C0 = nan \/ m = nan \/ sg = nan -> gbm_value C0 m sg z t = nan.
Proof.
  intros H. unfold gbm_value.
  destruct H as [-> | H]; [reflexivity | ].
  rewrite prefix_sum_nan.
  - destruct C0; reflexivity.
  - intros i. unfold drift_term.
    destruct H as [-> | ->]; [reflexivity | ].
    destruct m; reflexivity.
Qed.

(** A [nan] parameter is not an error for [simulate]: when the initial
    capital, mu or sigma is [nan], the call completes and every cell of the
    matrix is [nan]. *)
Theorem simulate_propagates_nan :
  forall e : Env,
    (0 <= n_days (self e))%Z ->
    (0 <= n_simulations (self e))%Z ->
    initial_capital (self e) = nan \/ mu (self e) = nan \/ sigma (self e) = nan ->
    exists paths,
      snd (simulate e) = Ok paths /\
      forall t n,
        (t < Z.to_nat (n_days (self e)))%nat ->
        (n < Z.to_nat (n_simulations (self e)))%nat ->
        cell paths t n = nan.
Proof.
  intros e HT HN Hnan.
  rewrite (simulate_nonneg e HT HN). cbn [snd].
  eexists. split; [reflexivity | ].
  intros t n Ht Hn. rewrite cell_gbm_matrix by assumption.
  now apply gbm_value_nan.
Qed.

Lemma simulate_propagates_nan_witness :
  exists paths,
    snd (simulate (env_of (calibrated [fin 0.01] (fin 1000) 3 2 None) []
                          (fun k => INR k)))
    = Ok paths /\
    forall t n, (t < 3)%nat -> (n < 2)%nat -> cell paths t n = nan.
Proof.
  apply (simulate_propagates_nan
           (env_of (calibrated [fin 0.01] (fin 1000) 3 2 None) []
                   (fun k => INR k))).
  - simpl; lia.
  - simpl; lia.
  - right. right. reflexivity.
Defined.

End PathShape.

(** ** Further properties of the constructor *)

Section CalibratorEdges.

Lemma init_of_cleaned df C0 T N vm xs :
  cleaned_returns df = Some xs ->
  snd (__init__ C0 T N vm df) = Ok (calibrated xs C0 T N vm).
Proof.
  intros Hc. rewrite init_cases. unfold cleaned_returns in Hc.
  destruct (pd.lookup "pnl_pct" df) as [s | ].
  - injection Hc as <-. reflexivity.
  - destruct (pd.lookup "close" df) as [c | ]; [ | discriminate].
    injection Hc as <-. reflexivity.
Qed.

Lemma cleaned_valid df xs :
  cleaned_returns df = Some xs ->
  forallb (fun x => negb (isnan x)) xs = true.
Proof.
  unfold cleaned_returns.
  destruct (pd.lookup "pnl_pct" df) as [s | ].
  - intros [= <-]. apply dropna_valid.
  - destruct (pd.lookup "close" df) as [c | ]; [ | discriminate].
    intros [= <-]. apply dropna_valid.
Qed.

(** When no valid return is left after cleaning, the constructor does not
    raise: it stores an empty series and [nan] for both mu and sigma,
    whatever the multiplier. *)
Theorem empty_series_gives_nan_parameters :
  forall (df : pd.DataFrame) (C0 : float64) (T N : Z) (vm : option float64),
    cleaned_returns df = Some [] ->
    exists sim,
      snd (__init__ C0 T N vm df) = Ok sim /\
      returns sim = [] /\ mu sim = nan /\ sigma sim = nan.
Proof.
  intros df C0 T N vm Hc. rewrite (init_of_cleaned _ _ _ _ _ _ Hc).
  eexists. repeat split.
Qed.

Lemma empty_series_gives_nan_parameters_witness :
  exists sim,
    snd (__init__ (fin 1000) 252 50 (Some (fin 0.8))
                  [("pnl_pct", [nan; nan])])
    = Ok sim /\
    returns sim = [] /\ mu sim = nan /\ sigma sim = nan.
Proof.
  apply (empty_series_gives_nan_parameters [("pnl_pct", [nan; nan])]).
  reflexivity.
Defined.

Lemma fadd_0_l x : fadd (fin 0) x = x.
Proof. destruct x; simpl; try reflexivity. apply fin_eq; lra. Qed.

Lemma fdiv_1_r x : fdiv x (fin 1) = x.
Proof.
  destruct x as [ | s | r]; simpl; rewrite ?(Rsign_pos 1) by lra.
  - reflexivity.
  - reflexivity.
  - apply fin_eq. field.
Qed.

(** With exactly one valid return [x], mu is [x] and sigma is [nan]
    (the sample standard deviation needs two values), whatever the
    multiplier. *)
Theorem single_return_gives_nan_sigma :
  forall (df : pd.DataFrame) (C0 : float64) (T N : Z) (vm : option float64)
         (x : float64),
    cleaned_returns df = Some [x] ->
    exists sim,
      snd (__init__ C0 T N vm df) = Ok sim /\
      returns sim = [x] /\ mu sim = x /\ sigma sim = nan.
Proof.
  intros df C0 T N vm x Hc. rewrite (init_of_cleaned _ _ _ _ _ _ Hc).
  pose proof (cleaned_valid _ _ Hc) as Hv.
  eexists. split; [reflexivity | ]. split; [reflexivity | ].
  cbn [mu sigma calibrated]. split.
  - unfold pd.mean. rewrite (dropna_id [x] Hv).
    cbn [List.length]. unfold fsum, of_nat. cbn [fold_left INR].
    rewrite fadd_0_l. apply fdiv_1_r.
  - unfold pd.std, pd.var. rewrite (dropna_id [x] Hv). reflexivity.
Qed.

End CalibratorEdges.

Section CalibratorFromPrices.

Lemma single_return_gives_nan_sigma_witness :
  exists sim,
    snd (__init__ (fin 1000) 252 50 (Some (fin 0.8))
                  [("pnl_pct", [nan; fin 0.02])])
    = Ok sim /\
    returns sim = [fin 0.02] /\ mu sim = fin 0.02 /\ sigma sim = nan.
Proof.
  apply (single_return_gives_nan_sigma [("pnl_pct", [nan; fin 0.02])]).
  reflexivity.
Defined.

Lemma fdiv_nan_r x : fdiv x nan = nan.
Proof. destruct x; reflexivity. Qed.

Lemma pct_change_single x : pd.pct_change [x] = [nan].
Proof.
  unfold pd.pct_change, pd.ffill. cbn [pd.ffill_from pd.shift1 removelast
    pd.zip_with]. now rewrite fdiv_nan_r.
Qed.

(** A 'close' column with fewer than two prices has no return to offer:
    the constructor appends an all-[nan] 'pnl_pct' column to the table and
    succeeds with an empty series and [nan] parameters. *)
Theorem short_price_series_gives_nan_parameters :
  forall (df : pd.DataFrame) (c : pd.Series) (C0 : float64) (T N : Z)
         (vm : option float64),
    pd.lookup "pnl_pct" df = None ->
    pd.lookup "close" df = Some c ->
    (List.length c <= 1)%nat ->
    exists sim,
      __init__ C0 T N vm df
      = ((df ++ [("pnl_pct", map (fun _ => nan) c)])%list, Ok sim) /\
      returns sim = [] /\ mu sim = nan /\ sigma sim = nan.
Proof.
  intros df c C0 T N vm Hp Hc Hlen.
  rewrite init_cases, Hp, Hc, (assign_absent _ _ _ Hp).
  destruct c as [ | x [ | y c]]; [ | | simpl in Hlen; lia].
  - eexists. repeat split.
  - rewrite pct_change_single. eexists. repeat split.
Qed.

Lemma short_price_series_gives_nan_parameters_witness :
  exists sim,
    __init__ (fin 1000) 252 50 None table_one_price
    = ((table_one_price ++ [("pnl_pct", [nan])])%list, Ok sim) /\
    returns sim = [] /\ mu sim = nan /\ sigma sim = nan.
Proof.
  apply (short_price_series_gives_nan_parameters table_one_price [fin 100]);
    first [reflexivity | simpl; lia].
Defined.

Lemma fdiv_fin_nonzero a b : b <> 0 -> fdiv (fin a) (fin b) = fin (a / b).
Proof.
  intros Hb. cbn [fdiv]. unfold Rsign.
  destruct (total_order_T b 0) as [[Hlt | Heq] | Hgt];
    [reflexivity | contradiction | reflexivity].
Qed.

Lemma ffill_from_fin prev ps :
  pd.ffill_from prev (map fin ps) = map fin ps.
Proof.
  revert prev. induction ps as [ | p ps IH]; intros prev; simpl;
    [reflexivity | now rewrite IH].
Qed.

Lemma zip_with_shift {A B} (f : A -> A -> B) l p :
  pd.zip_with f l (p :: removelast l) = pd.zip_with f l (p :: l).
Proof.
  revert p. induction l as [ | x l IH]; intros p; [reflexivity | ].
  destruct l as [ | y l]; [reflexivity | ].
  change (removelast (x :: y :: l)) with (x :: removelast (y :: l)).
  cbn [pd.zip_with]. f_equal. apply IH.
Qed.

Lemma zip_with_changes rest :
  forall a,
    a <> 0 -> Forall (fun p => p <> 0) rest ->
    pd.zip_with (fun d p => fsub (fdiv d p) (fin 1))
                (map fin rest) (fin a :: map fin rest)
    = map fin (changes_from a rest).
Proof.
  induction rest as [ | b rest IH]; intros a Ha Hall; [reflexivity | ].
  inversion Hall as [ | ? ? Hb Hrest]; subst.
  cbn [map pd.zip_with changes_from].
  rewrite (fdiv_fin_nonzero b a Ha). f_equal. now apply IH.
Qed.

Lemma pct_change_prices_general a rest :
  Forall (fun p => p <> 0) (a :: rest) ->
  pd.pct_change (map fin (a :: rest))
  = nan :: map fin (changes_from a rest).
Proof.
  intros Hall. inversion Hall as [ | ? ? Ha Hrest]; subst.
  unfold pd.pct_change, pd.ffill. rewrite ffill_from_fin.
  unfold pd.shift1. cbn [map]. rewrite zip_with_shift.
  cbn [pd.zip_with]. f_equal. now apply zip_with_changes.
Qed.

Lemma dropna_map_fin rs : pd.dropna (map fin rs) = map fin rs.
Proof.
  unfold pd.dropna. induction rs as [ | r rs IH]; simpl;
    [reflexivity | now rewrite IH].
Qed.

(** From a table that has only prices, all finite and non-zero, the
    constructor calibrates on the period-over-period changes [b / a - 1] of
    consecutive prices: one return fewer than there are prices; the column
    it appends to the table is those returns after a leading [nan]. *)
Theorem returns_derived_from_prices :
  forall (df : pd.DataFrame) (ps : list R) (C0 : float64) (T N : Z)
         (vm : option float64),
    pd.lookup "pnl_pct" df = None ->
    pd.lookup "close" df = Some (map fin ps) ->
    ps <> [] ->
    Forall (fun p => p <> 0) ps ->
    exists sim,
      __init__ C0 T N vm df
      = ((df ++ [("pnl_pct", nan :: map fin (consecutive_returns ps))])%list,
         Ok sim) /\
      returns sim = map fin (consecutive_returns ps) /\
      S (List.length (returns sim)) = List.length ps.
Proof.
  intros df ps C0 T N vm Hp Hc Hne Hall.
  rewrite init_cases, Hp, Hc, (assign_absent _ _ _ Hp).
  destruct ps as [ | a rest]; [contradiction | ].
  rewrite (pct_change_prices_general a rest Hall).
  eexists. split; [reflexivity | ].
  cbn [returns calibrated consecutive_returns pd.dropna filter isnan negb].
  fold (pd.dropna (map fin (changes_from a rest))).
  rewrite dropna_map_fin. split; [reflexivity | ].
  rewrite length_map. cbn [List.length]. f_equal.
  clear. revert a. induction rest as [ | b rest IH]; intros a;
    [reflexivity | ]. cbn [changes_from List.length]. now rewrite IH.
Qed.

Lemma returns_derived_from_prices_witness :
  exists sim,
    __init__ (fin 1000) 252 50 None table_close
    = ((table_close
          ++ [("pnl_pct",
               nan :: map fin (consecutive_returns [100; 101; 99]))])%list,
       Ok sim) /\
    returns sim = map fin (consecutive_returns [100; 101; 99]) /\
    S (List.length (returns sim)) = List.length [100; 101; 99].
Proof.
  apply (returns_derived_from_prices table_close [100; 101; 99]).
  - reflexivity.
  - reflexivity.
  - discriminate.
  - repeat constructor; lra.
Defined.

(** After a first construction the table is stable: constructing again
    from it, with any configuration, leaves it as the first call left it
    and calibrates exactly as that configuration would have on the
    original table. *)
Theorem constructor_is_stable_on_its_table :
  forall (df : pd.DataFrame) (C0 C0' : float64) (T N T' N' : Z)
         (vm vm' : option float64),
    __init__ C0' T' N' vm' (fst (__init__ C0 T N vm df))
    = (fst (__init__ C0 T N vm df), snd (__init__ C0' T' N' vm' df)).
Proof.
  intros df C0 C0' T N T' N' vm vm'.
  rewrite (init_cases C0 T N vm df), (init_cases C0' T' N' vm' df).
  destruct (pd.lookup "pnl_pct" df) as [s | ] eqn:Hp;
    [ | destruct (pd.lookup "close" df) as [c | ] eqn:Hc]; cbn [fst snd].
  - rewrite init_cases, Hp. reflexivity.
  - rewrite init_cases, lookup_assign_same. reflexivity.
  - rewrite init_cases, Hp, Hc. reflexivity.
Qed.

End CalibratorFromPrices.

Section VolatilityMultiplier.

Lemma fsqrt_range x :
  fsqrt x = nan \/ fsqrt x = inf false \/ exists s, 0 <= s /\ fsqrt x = fin s.
Proof.
  destruct x as [ | [ | ] | r]; cbn [fsqrt]; auto.
  destruct (Rsign r); auto; right; right; exists (sqrt r);
    (split; [apply sqrt_pos | reflexivity]).
Qed.

(** The calibrated volatility is the standard deviation of the cleaned
    series times the multiplier.  With the default multiplier sigma is
    pandas' standard deviation of the series (the sample standard deviation
    when the series is not empty), which is [nan], [+inf] or a non-negative
    number; with a multiplier [k] sigma is that value times [k], so a
    negative multiplier is accepted, and [k = 0] gives sigma 0 when the
    standard deviation is finite.  mu and the stored series do not depend
    on the multiplier. *)
Theorem sigma_is_std_times_multiplier :
  forall (df : pd.DataFrame) (xs : pd.Series) (C0 : float64) (T N : Z),
    cleaned_returns df = Some xs ->
    exists sim1,
      snd (__init__ C0 T N None df) = Ok sim1 /\
      sigma sim1 = pd.std xs /\
      (xs <> [] -> sigma sim1 = sample_std xs) /\
      (sigma sim1 = nan \/ sigma sim1 = inf false \/
       exists s, 0 <= s /\ sigma sim1 = fin s) /\
      forall k : float64,
        exists simk,
          snd (__init__ C0 T N (Some k) df) = Ok simk /\
          sigma simk = fmul (sigma sim1) k /\
          mu simk = mu sim1 /\
          returns simk = returns sim1 /\
          (isfinite (sigma sim1) = true -> k = fin 0 -> sigma simk = fin 0).
Proof.
  intros df xs C0 T N Hc.
  rewrite (init_of_cleaned _ _ _ _ _ _ Hc).
  eexists. split; [reflexivity | ]. cbn [sigma calibrated].
  rewrite fmul_1_r.
  split; [reflexivity | ].
  split; [intros Hne; apply std_valid;
          [exact (cleaned_valid _ _ Hc) | exact Hne] | ].
  split; [unfold pd.std; apply fsqrt_range | ].
  intros k. rewrite (init_of_cleaned _ _ _ _ _ _ Hc).
  eexists. split; [reflexivity | ]. cbn [sigma mu returns calibrated].
  repeat split.
  intros Hf ->. destruct (pd.std xs) as [ | | s]; try discriminate.
  cbn [fmul]. apply fin_eq. lra.
Qed.

Lemma sigma_is_std_times_multiplier_witness :
  exists sim1,
    snd (__init__ (fin 1000) 252 50 None table_returns) = Ok sim1 /\
    sigma sim1 = pd.std [fin 0.01; fin 0.03] /\
    ([fin 0.01; fin 0.03] <> [] ->
     sigma sim1 = sample_std [fin 0.01; fin 0.03]) /\
    (sigma sim1 = nan \/ sigma sim1 = inf false \/
     exists s, 0 <= s /\ sigma sim1 = fin s) /\
    forall k : float64,
      exists simk,
        snd (__init__ (fin 1000) 252 50 (Some k) table_returns) = Ok simk /\
        sigma simk = fmul (sigma sim1) k /\
        mu simk = mu sim1 /\
        returns simk = returns sim1 /\
        (isfinite (sigma sim1) = true -> k = fin 0 -> sigma simk = fin 0).
Proof.
  apply (sigma_is_std_times_multiplier table_returns [fin 0.01; fin 0.03]).
  reflexivity.
Defined.

End VolatilityMultiplier.

(** ** Further properties of [summary] *)

Section SummaryOutcomes.

Lemma row_of_empty_matrix s g N :
  np.row (gbm_matrix s g 0 N) (-1) = Raise (IndexError np.out_of_bounds_msg).
Proof. reflexivity. Qed.

(** [summary] right after a successful [simulate]: it succeeds exactly when
    there is at least one time step and at least one path.  With zero time
    steps it raises [IndexError] after the four header lines; with time
    steps but zero paths it raises numpy's empty-reduction [ValueError]
    after the header and the distribution title.  What was printed before
    the error stays printed. *)
Theorem summary_after_simulate_outcomes :
  forall e : Env,
    (0 <= n_days (self e))%Z ->
    (0 <= n_simulations (self e))%Z ->
    let e' := fst (simulate e) in
    (snd (summary e') = Ok tt <->
     (1 <= n_days (self e) /\ 1 <= n_simulations (self e))%Z) /\
    (n_days (self e) = 0%Z ->
     summary e'
     = ({| self := self e';
           stdout := (stdout e ++ summary_header (self e))%list;
           random_state := random_state e' |},
        Raise (IndexError np.out_of_bounds_msg))) /\
    ((1 <= n_days (self e))%Z -> n_simulations (self e) = 0%Z ->
     summary e'
     = ({| self := self e';
           stdout := (stdout e ++ summary_header (self e)
                        ++ [distribution_title])%list;
           random_state := random_state e' |},
        Raise (ValueError np.zero_size_minimum_msg))).
Proof.
  intros e HT HN e'. subst e'.
  rewrite (simulate_nonneg e HT HN). cbn [fst].
  rewrite summary_cases. unfold summary_outcome.
  cbn [self stdout random_state simulated_paths with_paths].
  change (summary_header (with_paths (self e) _))
    with (summary_header (self e)).
  destruct (Z.to_nat (n_days (self e))) as [ | T'] eqn:ET.
  - rewrite row_of_empty_matrix. cbn [fst snd].
    split; [split; [discriminate | lia] | ].
    split; [ | lia]. intros _. now rewrite app_nil_r.
  - rewrite row_last_gbm by lia.
    destruct (Z.to_nat (n_simulations (self e))) as [ | N'] eqn:EN;
      cbn [seq map fst snd].
    + split; [split; [discriminate | lia] | ].
      split; [lia | ]. intros _ _. reflexivity.
    + split; [split; [lia | reflexivity] | ].
      split; lia.
Qed.

Lemma summary_after_simulate_outcomes_witness :
  (snd (summary (fst (simulate env_zero_days))) = Ok tt <->
   (1 <= 0 /\ 1 <= 1)%Z) /\
  (0%Z = 0%Z ->
   summary (fst (simulate env_zero_days))
   = ({| self := self (fst (simulate env_zero_days));
         stdout := ([] ++ summary_header (self env_zero_days))%list;
         random_state := random_state (fst (simulate env_zero_days)) |},
      Raise (IndexError np.out_of_bounds_msg))) /\
  ((1 <= 0)%Z -> 1%Z = 0%Z ->
   summary (fst (simulate env_zero_days))
   = ({| self := self (fst (simulate env_zero_days));
         stdout := ([] ++ summary_header (self env_zero_days)
                       ++ [distribution_title])%list;
         random_state := random_state (fst (simulate env_zero_days)) |},
      Raise (ValueError np.zero_size_minimum_msg))).
Proof.
  apply (summary_after_simulate_outcomes env_zero_days); simpl; lia.
Defined.

End SummaryOutcomes.

Section SummaryExtremes.

Lemma fle_refl x : isnan x = false -> fle x x = true.
Proof.
  destruct x as [ | [ | ] | a]; cbn; try discriminate; try reflexivity.
  intros _. destruct (Rle_dec a a); [reflexivity | lra].
Qed.

Lemma fle_total x y :
  isnan x = false -> isnan y = false -> fle x y = false -> fle y x = true.
Proof.
  destruct x as [ | [ | ] | a], y as [ | [ | ] | b]; cbn;
    try discriminate; try reflexivity.
  intros _ _. destruct (Rle_dec a b), (Rle_dec b a);
    try discriminate; try reflexivity. lra.
Qed.

Lemma fle_trans x y z : fle x y = true -> fle y z = true -> fle x z = true.
Proof.
  destruct x as [ | [ | ] | a], y as [ | [ | ] | b], z as [ | [ | ] | c]; cbn;
    try discriminate; try reflexivity.
  destruct (Rle_dec a b), (Rle_dec b c), (Rle_dec a c);
    try discriminate; try reflexivity. lra.
Qed.

Lemma fmin_valid x y :
  isnan x = false -> isnan y = false ->
  isnan (fmin x y) = false /\ (fmin x y = x \/ fmin x y = y) /\
  fle (fmin x y) x = true /\ fle (fmin x y) y = true.
Proof.
  intros Hx Hy. unfold fmin. rewrite Hx, Hy.
  destruct (fle x y) eqn:E.
  - repeat split; auto. now apply fle_refl.
  - repeat split; auto; [now apply fle_total | now apply fle_refl].
Qed.

Lemma fmax_valid x y :
  isnan x = false -> isnan y = false ->
  isnan (fmax x y) = false /\ (fmax x y = x \/ fmax x y = y) /\
  fle x (fmax x y) = true /\ fle y (fmax x y) = true.
Proof.
  intros Hx Hy. unfold fmax. rewrite Hx, Hy.
  destruct (fle x y) eqn:E.
  - repeat split; auto. now apply fle_refl.
  - repeat split; auto; [now apply fle_refl | now apply fle_total].
Qed.

Lemma fold_fmin_valid xs : forall acc,
  isnan acc = false ->
  forallb (fun v => negb (isnan v)) xs = true ->
  isnan (fold_left fmin xs acc) = false /\
  In (fold_left fmin xs acc) (acc :: xs) /\
  forall v, In v (acc :: xs) -> fle (fold_left fmin xs acc) v = true.
Proof.
  induction xs as [ | x xs IH]; intros acc Hacc Hall.
  - cbn. split; [exact Hacc | ]. split; [now left | ].
    intros v [<- | []]. now apply fle_refl.
  - cbn [forallb] in Hall. apply andb_true_iff in Hall as [Hx Hall].
    apply negb_true_iff in Hx.
    destruct (fmin_valid acc x Hacc Hx) as (Hm & Hsel & Hle1 & Hle2).
    destruct (IH (fmin acc x) Hm Hall) as (Hn & Hin & Hle).
    cbn [fold_left]. split; [exact Hn | ]. split.
    + destruct Hin as [Hin | Hin]; [ | right; right; exact Hin].
      rewrite <- Hin. destruct Hsel as [-> | ->]; [left | right; left];
        reflexivity.
    + intros v [<- | [<- | Hv]].
      * eapply fle_trans; [apply Hle; now left | exact Hle1].
      * eapply fle_trans; [apply Hle; now left | exact Hle2].
      * apply Hle. now right.
Qed.

Lemma fold_fmax_valid xs : forall acc,
  isnan acc = false ->
  forallb (fun v => negb (isnan v)) xs = true ->
  isnan (fold_left fmax xs acc) = false /\
  In (fold_left fmax xs acc) (acc :: xs) /\
  forall v, In v (acc :: xs) -> fle v (fold_left fmax xs acc) = true.
Proof.
  induction xs as [ | x xs IH]; intros acc Hacc Hall.
  - cbn. split; [exact Hacc | ]. split; [now left | ].
    intros v [<- | []]. now apply fle_refl.
  - cbn [forallb] in Hall. apply andb_true_iff in Hall as [Hx Hall].
    apply negb_true_iff in Hx.
    destruct (fmax_valid acc x Hacc Hx) as (Hm & Hsel & Hle1 & Hle2).
    destruct (IH (fmax acc x) Hm Hall) as (Hn & Hin & Hle).
    cbn [fold_left]. split; [exact Hn | ]. split.
    + destruct Hin as [Hin | Hin]; [ | right; right; exact Hin].
      rewrite <- Hin. destruct Hsel as [-> | ->]; [left | right; left];
        reflexivity.
    + intros v [<- | [<- | Hv]].
      * eapply fle_trans; [exact Hle1 | apply Hle; now left].
      * eapply fle_trans; [exact Hle2 | apply Hle; now left].
      * apply Hle. now right.
Qed.

(** For a stored matrix whose last row holds no [nan], [summary] succeeds
    and the minimum and the maximum it prints are values of that row that
    bound every value of the row (infinite values included); the other four
    lines carry numpy's mean, standard deviation and percentiles of the
    same row. *)
Theorem summary_statistics_are_ordered :
  forall (e : Env) (paths : ndarray) (x : float64) (rest : list float64),
    simulated_paths (self e) = Some paths ->
    np.row paths (-1) = Ok (x :: rest) ->
    forallb (fun v => negb (isnan v)) (x :: rest) = true ->
    exists lo hi,
      summary e =
      ({| self := self e;
          stdout :=
            (stdout e ++ summary_header (self e) ++
             [distribution_title;
              PMoney "Min             : " lo;
              PMoney "Max             : " hi;
              PMoney "Mean            : " (np.mean (x :: rest));
              PMoney "Std Dev         : " (np.std (x :: rest));
              PMoney "5th Percentile  : " (np.percentile (x :: rest) 5);
              PMoney "80th Percentile : " (np.percentile (x :: rest) 80)])%list;
          random_state := random_state e |},
       Ok tt) /\
      In lo (x :: rest) /\ In hi (x :: rest) /\
      fle lo hi = true /\
      forall v, In v (x :: rest) -> fle lo v = true /\ fle v hi = true.
Proof.
  intros e paths x rest Hp Hr Hall.
  cbn [forallb] in Hall. apply andb_true_iff in Hall as [Hx Hall].
  apply negb_true_iff in Hx.
  destruct (fold_fmin_valid rest x Hx Hall) as (_ & Hlo_in & Hlo).
  destruct (fold_fmax_valid rest x Hx Hall) as (_ & Hhi_in & Hhi).
  exists (fold_left fmin rest x), (fold_left fmax rest x).
  split; [ | split; [exact Hlo_in | split; [exact Hhi_in | split]]].
  - rewrite summary_cases. unfold summary_outcome. rewrite Hp, Hr.
    reflexivity.
  - now apply Hlo.
  - intros v Hv. split; [now apply Hlo | now apply Hhi].
Qed.

Lemma summary_statistics_are_ordered_witness :
  exists lo hi,
    summary env_terminal_1_3 =
    ({| self := sim_terminal_1_3;
        stdout :=
          ([] ++ summary_header sim_terminal_1_3 ++
           [distribution_title;
            PMoney "Min             : " lo;
            PMoney "Max             : " hi;
            PMoney "Mean            : " (np.mean [fin 1; fin 3]);
            PMoney "Std Dev         : " (np.std [fin 1; fin 3]);
            PMoney "5th Percentile  : " (np.percentile [fin 1; fin 3] 5);
            PMoney "80th Percentile : " (np.percentile [fin 1; fin 3] 80)])%list;
        random_state := fun k => INR k |},
     Ok tt) /\
    In lo [fin 1; fin 3] /\ In hi [fin 1; fin 3] /\
    fle lo hi = true /\
    forall v, In v [fin 1; fin 3] -> fle lo v = true /\ fle v hi = true.
Proof.
  apply (summary_statistics_are_ordered env_terminal_1_3
           {| shape := (1%nat, 2%nat); data := [[fin 1; fin 3]] |}
           (fin 1) [fin 3]);
    reflexivity.
Defined.

End SummaryExtremes.

(** ** [plot] and the script *)

Section PlotAndScript.

Lemma plot_cases (s : Session) :
  plot s =
  match simulated_paths (self (env s)) with
  | None => (s, Raise (ValueError not_plotted_msg))
  | Some p =>
      ({| env := env s;
          figure_log := (figure_log s ++ plot_calls p)%list |}, Ok tt)
  end.
Proof.
  unfold plot, bind, in_session, get_self, plt, raise.
  destruct s as [e log]. cbn [env figure_log].
  destruct (simulated_paths (self e)) as [p | ]; [ | reflexivity].
  unfold plot_calls. repeat rewrite <- app_assoc. reflexivity.
Qed.

(** [plot] raises its [ValueError] exactly when no matrix is stored, and
    then nothing has been drawn or printed (unlike [summary], which prints
    its header first).  After a successful [simulate], also one with zero
    time steps or zero paths, [plot] succeeds and hands matplotlib exactly
    the matrix [simulate] returned; it never changes the instance, the
    printed text or the generator. *)
Theorem plot_draws_the_simulated_matrix :
  forall s : Session,
    (simulated_paths (self (env s)) = None <->
     plot s = (s, Raise (ValueError not_plotted_msg))) /\
    env (fst (plot s)) = env s /\
    ((0 <= n_days (self (env s)))%Z ->
     (0 <= n_simulations (self (env s)))%Z ->
     exists s' p,
       (in_session simulate ;; plot) s = (s', Ok tt) /\
       simulate (env s) = (env s', Ok p) /\
       figure_log s' = (figure_log s ++ plot_calls p)%list).
Proof.
  intros s. rewrite plot_cases. split; [ | split].
  - destruct (simulated_paths (self (env s))); split;
      (discriminate || reflexivity).
  - destruct (simulated_paths (self (env s))); reflexivity.
  - intros HT HN. unfold bind, in_session.
    rewrite (simulate_nonneg (env s) HT HN).
    rewrite plot_cases. cbn [env self simulated_paths with_paths figure_log].
    eexists _, _. repeat split.
Qed.

(** The three method calls of the script, on a freshly constructed
    instance. *)
Lemma run_methods_ok (s : Session) :
  (1 <= n_days (self (env s)))%Z ->
  (1 <= n_simulations (self (env s)))%Z ->
  let T := Z.to_nat (n_days (self (env s))) in
  let N := Z.to_nat (n_simulations (self (env s))) in
  let p := gbm_matrix (self (env s)) (random_state (env s)) T N in
  exists lines,
    List.length lines = 7%nat /\
    run_methods s =
    ({| env :=
          {| self := with_paths (self (env s)) p;
             stdout := (stdout (env s) ++ summary_header (self (env s))
                          ++ lines)%list;
             random_state := fun k => random_state (env s) (k + T * N)%nat |};
        figure_log := (figure_log s ++ plot_calls p)%list |},
     Ok tt).
Proof.
  intros HT HN T N p. unfold run_methods, bind, in_session.
  rewrite simulate_nonneg by lia. fold T N. subst p.
  rewrite plot_cases. cbn [env self simulated_paths with_paths figure_log].
  rewrite summary_cases. unfold summary_outcome.
  cbn [self stdout random_state simulated_paths with_paths].
  rewrite row_last_gbm by (subst T; lia).
  destruct N as [ | N'] eqn:EN; [subst N; lia | ].
  cbn [seq map fst snd]. eexists. split; [ | reflexivity]. reflexivity.
Qed.

(** The script body: for every loaded table that has a 'pnl_pct' or a
    'close' column, the constructor, [simulate], [plot] and [summary] all
    succeed with the script's configuration (252 steps, 50 paths), also
    when the calibrated parameters are [nan]: one figure is drawn from the
    stored 252 x 50 matrix and eleven lines are printed.  For a table with
    neither column the script stops at the constructor's [ValueError],
    before anything is simulated, drawn or printed. *)
Theorem script_runs_iff_columns_present :
  forall (df : pd.DataFrame) (out : list printed) (g : nat -> R),
    (pd.contains "pnl_pct" df = true \/ pd.contains "close" df = true ->
     exists df' s p,
       script_body df out g = (df', Some s, Ok tt) /\
       simulated_paths (self (env s)) = Some p /\
       shape p = (252%nat, 50%nat) /\
       figure_log s = plot_calls p /\
       exists lines,
         List.length lines = 11%nat /\
         stdout (env s) = (out ++ lines)%list) /\
    (pd.contains "pnl_pct" df = false /\ pd.contains "close" df = false ->
     script_body df out g = (df, None, Raise (ValueError missing_columns_msg))).
Proof.
  intros df out g. unfold script_body. rewrite init_cases, !contains_lookup.
  assert (Hrun : forall sim,
            n_days sim = 252%Z -> n_simulations sim = 50%Z ->
            exists s p,
              run_methods
                {| env := {| self := sim; stdout := out; random_state := g |};
                   figure_log := [] |} = (s, Ok tt) /\
              simulated_paths (self (env s)) = Some p /\
              shape p = (252%nat, 50%nat) /\
              figure_log s = plot_calls p /\
              exists lines,
                List.length lines = 11%nat /\
                stdout (env s) = (out ++ lines)%list).
  { intros sim HT HN.
    destruct (run_methods_ok
                {| env := {| self := sim; stdout := out; random_state := g |};
                   figure_log := [] |}) as (lines & Hlen & Hrun);
      [cbn; lia | cbn; lia | ].
    cbn [env self stdout random_state figure_log] in Hrun.
    rewrite Hrun. eexists _, _. split; [reflexivity | ].
    cbn [env self simulated_paths with_paths figure_log stdout].
    split; [reflexivity | ].
    split; [unfold gbm_matrix; cbn [shape]; now rewrite HT, HN | ].
    split; [reflexivity | ].
    exists (summary_header sim ++ lines)%list. split; [ | reflexivity].
    rewrite length_app, Hlen. reflexivity. }
  destruct (pd.lookup "pnl_pct" df) as [c | ];
    [ | destruct (pd.lookup "close" df) as [c | ]].
  - split; [ | intros [? ?]; discriminate]. intros _.
    destruct (Hrun (calibrated (pd.dropna c) (fin 25000) 252 50
                               (Some (fin 0.8))) eq_refl eq_refl)
      as (s & p & Hr & H).
    rewrite Hr. eexists _, s, p. split; [reflexivity | exact H].
  - split; [ | intros [? ?]; discriminate]. intros _.
    destruct (Hrun (calibrated (pd.dropna (pd.pct_change c)) (fin 25000)
                               252 50 (Some (fin 0.8))) eq_refl eq_refl)
      as (s & p & Hr & H).
    rewrite Hr. eexists _, s, p. split; [reflexivity | exact H].
  - split; [intros [? | ?]; discriminate | ]. intros _. reflexivity.
Qed.

End PlotAndScript.

(** ** The symbol cache *)

Section SymbolCache.

Lemma update_cache_cases (o : Py.Outside) (data : Py.pyobj) (h : Py.Host) :
  CacheManager.update_cache o data h =
  if Py.is_none data || negb (String.eqb (Py.class_name data) "dict") then
    (h, Py.Return false)
  else
    match Py.open_error o with
    | Some cls => (h, Py.Throw (Py.TypeError cls))
    | None =>
        match Py.json_dump o data with
        | (text, None) =>
            ({| Py.cache_file := Some text;
                Py.console :=
                  (Py.console h ++ ["Cache updated successfully!"])%list |},
             Py.Return true)
        | (text, Some e) =>
            ({| Py.cache_file := Some text; Py.console := Py.console h |},
             Py.Throw (if Py.is_io_error e
                       then Py.TypeError (Py.exn_class e) else e))
        end
    end.
Proof.
  unfold CacheManager.update_cache.
  destruct (Py.is_none data || negb (String.eqb (Py.class_name data) "dict"));
    [reflexivity | ].
  unfold Py.bind, Py.try_except, Py.open_w, Py.dump, Py.print, Py.ret,
    Py.str_add_exn, Py.throw.
  destruct (Py.open_error o) as [cls | ]; [reflexivity | ].
  cbn [Py.console Py.cache_file].
  destruct (Py.json_dump o data) as [text [e | ]]; [ | reflexivity].
  destruct e; reflexivity.
Qed.

Lemma not_dict_condition (data : Py.pyobj) :
  Py.is_none data || negb (String.eqb (Py.class_name data) "dict") = true
  <-> Py.class_name data <> "dict".
Proof.
  destruct (String.eqb_spec (Py.class_name data) "dict") as [E | E].
  - destruct data; try discriminate; cbn; split; (discriminate || tauto).
  - rewrite orb_true_r. tauto.
Qed.

(** [update_cache] returns [False] exactly when the argument is not an
    object whose class is named "dict" ([None] included); it then touches
    neither the cache file nor the console.  No failure of the file system
    or of the encoder is ever reported as [False]. *)
Theorem update_cache_false_iff_not_a_dict :
  forall (o : Py.Outside) (data : Py.pyobj) (h : Py.Host),
    (snd (CacheManager.update_cache o data h) = Py.Return false <->
     Py.class_name data <> "dict") /\
    (Py.class_name data <> "dict" ->
     CacheManager.update_cache o data h = (h, Py.Return false)).
Proof.
  intros o data h. rewrite update_cache_cases.
  pose proof (not_dict_condition data) as Hc.
  destruct (Py.is_none data || negb (String.eqb (Py.class_name data) "dict")).
  - cbn [snd]. split; [ | reflexivity].
    split; [intros _; now apply Hc | reflexivity].
  - assert (Hd : ~ Py.class_name data <> "dict")
      by (intros H; apply Hc in H; discriminate).
    split; [ | intros H; contradiction].
    split; [ | intros H; contradiction].
    destruct (Py.open_error o); [discriminate | ].
    destruct (Py.json_dump o data) as [text [e | ]]; discriminate.
Qed.

(** When [update_cache] returns [True], the argument is a dict, the file
    was opened and the encoder finished: the cache file holds exactly the
    text the encoder produced for that argument, replacing what was there,
    and one line has been printed. *)
Theorem update_cache_true_means_written :
  forall (o : Py.Outside) (data : Py.pyobj) (h : Py.Host),
    snd (CacheManager.update_cache o data h) = Py.Return true ->
    Py.class_name data = "dict" /\
    Py.open_error o = None /\
    snd (Py.json_dump o data) = None /\
    fst (CacheManager.update_cache o data h)
    = {| Py.cache_file := Some (fst (Py.json_dump o data));
         Py.console :=
           (Py.console h ++ ["Cache updated successfully!"])%list |}.
Proof.
  intros o data h. rewrite update_cache_cases.
  pose proof (not_dict_condition data) as Hc.
  destruct (Py.is_none data || negb (String.eqb (Py.class_name data) "dict")).
  - discriminate.
  - assert (Hd : Py.class_name data = "dict").
    { destruct (String.eqb_spec (Py.class_name data) "dict") as [E | E];
        [exact E | ]. apply Hc in E. discriminate. }
    destruct (Py.open_error o) as [cls | ]; [discriminate | ].
    destruct (Py.json_dump o data) as [text [e | ]]; cbn [fst snd];
      [discriminate | ].
    intros _. repeat split; assumption.
Qed.

Lemma update_cache_true_means_written_witness :
  Py.class_name (Py.PyDict []) = "dict" /\
  Py.open_error outside_ok = None /\
  snd (Py.json_dump outside_ok (Py.PyDict [])) = None /\
  fst (CacheManager.update_cache outside_ok (Py.PyDict []) host_with_cache)
  = {| Py.cache_file := Some (fst (Py.json_dump outside_ok (Py.PyDict [])));
       Py.console :=
         (Py.console host_with_cache
            ++ ["Cache updated successfully!"])%list |}.
Proof.
  apply (update_cache_true_means_written outside_ok (Py.PyDict [])
           host_with_cache).
  reflexivity.
Defined.

(** An [OSError] never leaves [update_cache], and is never answered with
    [False]: the handler's own string concatenation raises, so a dict
    argument whose file cannot be opened, or whose write fails, ends in a
    [TypeError] naming the original exception's class. *)
Theorem update_cache_io_error_becomes_type_error :
  forall (o : Py.Outside) (data : Py.pyobj) (h : Py.Host),
    (forall cls,
       snd (CacheManager.update_cache o data h) <> Py.Throw (Py.OSError cls)) /\
    (forall cls,
       Py.class_name data = "dict" ->
       Py.open_error o = Some cls \/
       (Py.open_error o = None /\
        snd (Py.json_dump o data) = Some (Py.OSError cls)) ->
       snd (CacheManager.update_cache o data h)
       = Py.Throw (Py.TypeError cls)).
Proof.
  intros o data h. rewrite update_cache_cases.
  pose proof (not_dict_condition data) as Hc.
  destruct (Py.is_none data || negb (String.eqb (Py.class_name data) "dict")).
  - cbn [snd]. split; [discriminate | ].
    intros cls Hd _. exfalso. now apply Hc.
  - destruct (Py.open_error o) as [c | ].
    + cbn [snd]. split; [discriminate | ].
      intros cls _ [[= ->] | [? _]]; [reflexivity | discriminate].
    + destruct (Py.json_dump o data) as [text [e | ]]; cbn [fst snd].
      * split.
        -- intros cls. destruct e; discriminate.
        -- intros cls _ [? | [_ [= ->]]]; [discriminate | reflexivity].
      * split; [discriminate | ].
        intros cls _ [? | [_ ?]]; discriminate.
Qed.

(** The update is not atomic: once the file has been opened, an encoder
    that stops with an exception leaves the cache file holding only the
    text written so far; the previous content is gone, nothing is printed,
    and the call raises. *)
Theorem update_cache_failure_truncates_file :
  forall (o : Py.Outside) (data : Py.pyobj) (h : Py.Host)
         (text : string) (e : Py.pyexn),
    Py.class_name data = "dict" ->
    Py.open_error o = None ->
    Py.json_dump o data = (text, Some e) ->
    exists e',
      CacheManager.update_cache o data h
      = ({| Py.cache_file := Some text; Py.console := Py.console h |},
         Py.Throw e') /\
      (Py.is_io_error e = false -> e' = e).
Proof.
  intros o data h text e Hd Ho Hj. rewrite update_cache_cases, Ho, Hj.
  replace (Py.is_none data || negb (String.eqb (Py.class_name data) "dict"))
    with false.
  - eexists. split; [reflexivity | ]. now intros ->.
  - symmetry. rewrite Hd. destruct data; try discriminate; reflexivity.
Qed.

End SymbolCache.

Section SymbolFetch.

Lemma update_cache_failure_truncates_file_witness :
  exists e',
    CacheManager.update_cache outside_disk_full (Py.PyDict []) host_with_cache
    = ({| Py.cache_file := Some "{"; Py.console := [] |}, Py.Throw e') /\
    (Py.is_io_error (Py.OSError "OSError") = false ->
     e' = Py.OSError "OSError").
Proof.
  apply (update_cache_failure_truncates_file outside_disk_full (Py.PyDict [])
           host_with_cache "{" (Py.OSError "OSError")); reflexivity.
Defined.

Lemma update_cache_dict_not_false o items h :
  snd (CacheManager.update_cache o (Py.PyDict items) h) <> Py.Return false.
Proof.
  rewrite update_cache_cases. cbn [Py.is_none Py.class_name orb].
  rewrite String.eqb_refl. cbn [negb].
  destruct (Py.open_error o); [discriminate | ].
  destruct (Py.json_dump o (Py.PyDict items)) as [text [e | ]]; discriminate.
Qed.

Lemma fetch_symbols_cases (o : Py.Outside) (h : Py.Host) :
  MetadataService.fetch_symbols o h =
  match Py.nse_eq_symbols o with
  | Py.Throw e => (h, Py.Throw (handled e))
  | Py.Return symbols =>
      let h1 := {| Py.cache_file := Py.cache_file h;
                   Py.console :=
                     (Py.console h ++ ["Symbols fetched successfully!"])%list |} in
      match CacheManager.update_cache o (symbols_record o symbols) h1 with
      | (h2, Py.Return b) => (h2, Py.Return b)
      | (h2, Py.Throw e) => (h2, Py.Throw (handled e))
      end
  end.
Proof.
  unfold MetadataService.fetch_symbols, Py.bind, Py.try_except, Py.call_api,
    Py.print, Py.ret, Py.str_add_exn, Py.throw, handled.
  destruct (Py.nse_eq_symbols o) as [symbols | e].
  - fold (symbols_record o symbols).
    pose proof (update_cache_dict_not_false o
                  [("datetime", Py.PyStr (Py.now o)); ("symbols", symbols)]
                  {| Py.cache_file := Py.cache_file h;
                     Py.console :=
                       (Py.console h ++ ["Symbols fetched successfully!"])%list |})
      as Hnf.
    fold (symbols_record o symbols) in Hnf.
    destruct (CacheManager.update_cache o (symbols_record o symbols) _)
      as [h2 [[ | ] | e]]; cbn [snd] in Hnf.
    + reflexivity.
    + exfalso. now apply Hnf.
    + destruct (Py.is_exception e); reflexivity.
  - destruct (Py.is_exception e); reflexivity.
Qed.

End SymbolFetch.

Section SymbolFetchClaims.

(** [fetch_symbols] never returns [False]: it returns [True] or it raises,
    and what it raises is either the [TypeError] of its own handler's
    string concatenation or an exception that is not an [Exception]
    (such as [KeyboardInterrupt]) passing through. *)
Theorem fetch_symbols_never_returns_false :
  forall (o : Py.Outside) (h : Py.Host),
    snd (MetadataService.fetch_symbols o h) <> Py.Return false /\
    (snd (MetadataService.fetch_symbols o h) = Py.Return true \/
     (exists c, snd (MetadataService.fetch_symbols o h)
                = Py.Throw (Py.TypeError c)) \/
     (exists c, snd (MetadataService.fetch_symbols o h)
                = Py.Throw (Py.NonException c))).
Proof.
  intros o h. rewrite fetch_symbols_cases.
  assert (Hh : forall e,
            (exists c, Py.Throw (A := bool) (handled e)
                       = Py.Throw (Py.TypeError c)) \/
            (exists c, Py.Throw (A := bool) (handled e)
                       = Py.Throw (Py.NonException c))).
  { intros e. unfold handled. destruct e; cbn; eauto. }
  destruct (Py.nse_eq_symbols o) as [symbols | e].
  - cbv zeta.
    pose proof (update_cache_dict_not_false o
                  [("datetime", Py.PyStr (Py.now o)); ("symbols", symbols)]
                  {| Py.cache_file := Py.cache_file h;
                     Py.console :=
                       (Py.console h ++ ["Symbols fetched successfully!"])%list |})
      as Hnf.
    fold (symbols_record o symbols) in Hnf.
    destruct (CacheManager.update_cache o (symbols_record o symbols) _)
      as [h2 [[ | ] | e]]; cbn [snd] in *.
    + split; [discriminate | now left].
    + contradiction.
    + split; [discriminate | right; apply Hh].
  - cbn [snd]. split; [discriminate | right; apply Hh].
Qed.

(** When [fetch_symbols] returns [True], the NSE client returned, the
    cache file was opened and the encoder finished: the cache file holds
    the encoding of the dictionary with the current time under "datetime"
    and the fetched symbols under "symbols", and the two success lines have
    been printed in order. *)
Theorem fetch_symbols_true_means_cached :
  forall (o : Py.Outside) (h : Py.Host),
    snd (MetadataService.fetch_symbols o h) = Py.Return true ->
    exists symbols,
      Py.nse_eq_symbols o = Py.Return symbols /\
      Py.open_error o = None /\
      snd (Py.json_dump o (symbols_record o symbols)) = None /\
      fst (MetadataService.fetch_symbols o h)
      = {| Py.cache_file :=
             Some (fst (Py.json_dump o (symbols_record o symbols)));
           Py.console :=
             (Py.console h ++ ["Symbols fetched successfully!";
                               "Cache updated successfully!"])%list |}.
Proof.
  intros o h. rewrite fetch_symbols_cases.
  destruct (Py.nse_eq_symbols o) as [symbols | e]; [ | discriminate].
  cbv zeta. rewrite update_cache_cases.
  replace (Py.is_none (symbols_record o symbols)
           || negb (String.eqb (Py.class_name (symbols_record o symbols))
                               "dict"))
    with false by reflexivity.
  destruct (Py.open_error o) as [cls | ]; [discriminate | ].
  destruct (Py.json_dump o (symbols_record o symbols)) as [text [e | ]]
    eqn:Ej; cbn [fst snd Py.console]; [discriminate | ].
  intros _. exists symbols. rewrite Ej. cbn [fst snd].
  repeat split. now rewrite <- app_assoc.
Qed.

Lemma fetch_symbols_true_means_cached_witness :
  exists symbols,
    Py.nse_eq_symbols outside_ok = Py.Return symbols /\
    Py.open_error outside_ok = None /\
    snd (Py.json_dump outside_ok (symbols_record outside_ok symbols)) = None /\
    fst (MetadataService.fetch_symbols outside_ok host_with_cache)
    = {| Py.cache_file :=
           Some (fst (Py.json_dump outside_ok
                        (symbols_record outside_ok symbols)));
         Py.console :=
           (Py.console host_with_cache
              ++ ["Symbols fetched successfully!";
                  "Cache updated successfully!"])%list |}.
Proof.
  apply (fetch_symbols_true_means_cached outside_ok host_with_cache).
  reflexivity.
Defined.

(** When the NSE client raises an [Exception], [fetch_symbols] neither
    returns [False] nor lets that exception through: its handler raises a
    [TypeError] naming the exception's class, and the cache file and the
    console are left untouched.  The same happens to an exception raised
    while the cache is written, after the first success line has been
    printed. *)
Theorem fetch_symbols_failure_raises_type_error :
  forall (o : Py.Outside) (h : Py.Host) (e : Py.pyexn),
    Py.is_exception e = true ->
    (Py.nse_eq_symbols o = Py.Throw e ->
     MetadataService.fetch_symbols o h
     = (h, Py.Throw (Py.TypeError (Py.exn_class e)))) /\
    (forall symbols h2,
       Py.nse_eq_symbols o = Py.Return symbols ->
       CacheManager.update_cache o (symbols_record o symbols)
         {| Py.cache_file := Py.cache_file h;
            Py.console :=
              (Py.console h ++ ["Symbols fetched successfully!"])%list |}
       = (h2, Py.Throw e) ->
       MetadataService.fetch_symbols o h
       = (h2, Py.Throw (Py.TypeError (Py.exn_class e)))).
Proof.
  intros o h e He. rewrite fetch_symbols_cases. split.
  - intros ->. unfold handled. now rewrite He.
  - intros symbols h2 -> Hu. cbv zeta. rewrite Hu.
    unfold handled. now rewrite He.
Qed.

Lemma fetch_symbols_failure_raises_type_error_witness :
  (Py.nse_eq_symbols outside_offline
   = Py.Throw (Py.OtherException "ConnectionError") ->
   MetadataService.fetch_symbols outside_offline host_with_cache
   = (host_with_cache, Py.Throw (Py.TypeError "ConnectionError"))) /\
  (forall symbols h2,
     Py.nse_eq_symbols outside_offline = Py.Return symbols ->
     CacheManager.update_cache outside_offline
       (symbols_record outside_offline symbols)
       {| Py.cache_file := Py.cache_file host_with_cache;
          Py.console :=
            (Py.console host_with_cache
               ++ ["Symbols fetched successfully!"])%list |}
     = (h2, Py.Throw (Py.OtherException "ConnectionError")) ->
     MetadataService.fetch_symbols outside_offline host_with_cache
     = (h2, Py.Throw (Py.TypeError "ConnectionError"))).
Proof.
  apply (fetch_symbols_failure_raises_type_error outside_offline
           host_with_cache (Py.OtherException "ConnectionError")).
  reflexivity.
Defined.

(** The three worlds, run. *)
Example fetch_symbols_runs :
  MetadataService.fetch_symbols outside_ok host_with_cache
  = ({| Py.cache_file := Some "{...}";
        Py.console := ["Symbols fetched successfully!";
                       "Cache updated successfully!"] |}, Py.Return true) /\
  MetadataService.fetch_symbols outside_disk_full host_with_cache
  = ({| Py.cache_file := Some "{";
        Py.console := ["Symbols fetched successfully!"] |},
     Py.Throw (Py.TypeError "TypeError")) /\
  MetadataService.fetch_symbols outside_offline host_with_cache
  = (host_with_cache, Py.Throw (Py.TypeError "ConnectionError")).
Proof. repeat split. Qed.

End SymbolFetchClaims.
